(** * Verification of the Pong game server (backend/pong)

    Shallow embedding of [pong/game_engine.py] ([GameEngine]) and of the
    websocket consumer of [pong/consumers.py] ([PongConsumer]).

    Python floats are modelled by the reals [R]; the random draws of the
    engine ([random.choice] in [start_game], [random.uniform] in
    [reset_ball]) are explicit inputs of the operations that perform them. *)

From Stdlib Require Import Reals Lra ZArith String.
From stdpp Require Import base gmap strings.

(* ================================================================== *)
(** ** The game engine ([pong/game_engine.py]) *)

Module Engine.

Local Open Scope R_scope.

(** Python comparisons on floats, as booleans. *)
Definition Rleb (a b : R) : bool := if Rle_dec a b then true else false.
Definition Rltb (a b : R) : bool := if Rlt_dec a b then true else false.

(** Python's [min(a, b)] keeps [a] unless [b < a]; [max(a, b)] keeps [a]
    unless [b > a]. *)
Definition py_min (a b : R) : R := if Rltb b a then b else a.
Definition py_max (a b : R) : R := if Rltb a b then b else a.

(** Class constants of [GameEngine]. *)
Definition FIELD_WIDTH : R := 100.
Definition FIELD_HEIGHT : R := 100.
Definition PADDLE_WIDTH : R := 2.
Definition PADDLE_HEIGHT : R := 20.
Definition BALL_SIZE : R := 2.
Definition INITIAL_BALL_SPEED : R := 0.8.
Definition SPEED_INCREASE_FACTOR : R := 1.05.
Definition MAX_BALL_SPEED : R := 3.0.
Definition PADDLE_SPEED : R := 1.5.

Inductive Status :=
  | waiting_for_opponent
  | waiting_for_ready
  | playing
  | finished.

Definition status_eqb (a b : Status) : bool :=
  match a, b with
  | waiting_for_opponent, waiting_for_opponent
  | waiting_for_ready, waiting_for_ready
  | playing, playing
  | finished, finished => true
  | _, _ => false
  end.

(** The attributes of a [GameEngine] object. *)
Record GameEngine := mkEngine {
  room_code : string;
  points_limit : Z;
  status : Status;
  player1_ready : bool;
  player2_ready : bool;
  player1_connected : bool;
  player2_connected : bool;
  score_p1 : Z;
  score_p2 : Z;
  winner : option string;
  p1_y : R;
  p2_y : R;
  p1_direction : string;
  p2_direction : string;
  ball_x : R;
  ball_y : R;
  ball_velocity_x : R;
  ball_velocity_y : R;
  ball_speed : R
}.

(** Attribute assignments [self.<field> = v]. *)
Definition set_status v e :=
  let '(mkEngine rc pl _ r1 r2 c1 c2 s1 s2 w y1 y2 d1 d2 bx byy vx vy sp) := e in
  mkEngine rc pl v r1 r2 c1 c2 s1 s2 w y1 y2 d1 d2 bx byy vx vy sp.
Definition set_player1_ready v e :=
  let '(mkEngine rc pl st _ r2 c1 c2 s1 s2 w y1 y2 d1 d2 bx byy vx vy sp) := e in
  mkEngine rc pl st v r2 c1 c2 s1 s2 w y1 y2 d1 d2 bx byy vx vy sp.
Definition set_player2_ready v e :=
  let '(mkEngine rc pl st r1 _ c1 c2 s1 s2 w y1 y2 d1 d2 bx byy vx vy sp) := e in
  mkEngine rc pl st r1 v c1 c2 s1 s2 w y1 y2 d1 d2 bx byy vx vy sp.
Definition set_player1_connected v e :=
  let '(mkEngine rc pl st r1 r2 _ c2 s1 s2 w y1 y2 d1 d2 bx byy vx vy sp) := e in
  mkEngine rc pl st r1 r2 v c2 s1 s2 w y1 y2 d1 d2 bx byy vx vy sp.
Definition set_player2_connected v e :=
  let '(mkEngine rc pl st r1 r2 c1 _ s1 s2 w y1 y2 d1 d2 bx byy vx vy sp) := e in
  mkEngine rc pl st r1 r2 c1 v s1 s2 w y1 y2 d1 d2 bx byy vx vy sp.
Definition set_score_p1 v e :=
  let '(mkEngine rc pl st r1 r2 c1 c2 _ s2 w y1 y2 d1 d2 bx byy vx vy sp) := e in
  mkEngine rc pl st r1 r2 c1 c2 v s2 w y1 y2 d1 d2 bx byy vx vy sp.
Definition set_score_p2 v e :=
  let '(mkEngine rc pl st r1 r2 c1 c2 s1 _ w y1 y2 d1 d2 bx byy vx vy sp) := e in
  mkEngine rc pl st r1 r2 c1 c2 s1 v w y1 y2 d1 d2 bx byy vx vy sp.
Definition set_winner v e :=
  let '(mkEngine rc pl st r1 r2 c1 c2 s1 s2 _ y1 y2 d1 d2 bx byy vx vy sp) := e in
  mkEngine rc pl st r1 r2 c1 c2 s1 s2 v y1 y2 d1 d2 bx byy vx vy sp.
Definition set_p1_y v e :=
  let '(mkEngine rc pl st r1 r2 c1 c2 s1 s2 w _ y2 d1 d2 bx byy vx vy sp) := e in
  mkEngine rc pl st r1 r2 c1 c2 s1 s2 w v y2 d1 d2 bx byy vx vy sp.
Definition set_p2_y v e :=
  let '(mkEngine rc pl st r1 r2 c1 c2 s1 s2 w y1 _ d1 d2 bx byy vx vy sp) := e in
  mkEngine rc pl st r1 r2 c1 c2 s1 s2 w y1 v d1 d2 bx byy vx vy sp.
Definition set_p1_direction v e :=
  let '(mkEngine rc pl st r1 r2 c1 c2 s1 s2 w y1 y2 _ d2 bx byy vx vy sp) := e in
  mkEngine rc pl st r1 r2 c1 c2 s1 s2 w y1 y2 v d2 bx byy vx vy sp.
Definition set_p2_direction v e :=
  let '(mkEngine rc pl st r1 r2 c1 c2 s1 s2 w y1 y2 d1 _ bx byy vx vy sp) := e in
  mkEngine rc pl st r1 r2 c1 c2 s1 s2 w y1 y2 d1 v bx byy vx vy sp.
Definition set_ball_x v e :=
  let '(mkEngine rc pl st r1 r2 c1 c2 s1 s2 w y1 y2 d1 d2 _ byy vx vy sp) := e in
  mkEngine rc pl st r1 r2 c1 c2 s1 s2 w y1 y2 d1 d2 v byy vx vy sp.
Definition set_ball_y v e :=
  let '(mkEngine rc pl st r1 r2 c1 c2 s1 s2 w y1 y2 d1 d2 bx _ vx vy sp) := e in
  mkEngine rc pl st r1 r2 c1 c2 s1 s2 w y1 y2 d1 d2 bx v vx vy sp.
Definition set_ball_velocity_x v e :=
  let '(mkEngine rc pl st r1 r2 c1 c2 s1 s2 w y1 y2 d1 d2 bx byy _ vy sp) := e in
  mkEngine rc pl st r1 r2 c1 c2 s1 s2 w y1 y2 d1 d2 bx byy v vy sp.
Definition set_ball_velocity_y v e :=
  let '(mkEngine rc pl st r1 r2 c1 c2 s1 s2 w y1 y2 d1 d2 bx byy vx _ sp) := e in
  mkEngine rc pl st r1 r2 c1 c2 s1 s2 w y1 y2 d1 d2 bx byy vx v sp.
Definition set_ball_speed v e :=
  let '(mkEngine rc pl st r1 r2 c1 c2 s1 s2 w y1 y2 d1 d2 bx byy vx vy _) := e in
  mkEngine rc pl st r1 r2 c1 c2 s1 s2 w y1 y2 d1 d2 bx byy vx vy v.

(** [GameEngine(room_code, points_limit)]. *)
Definition init (rc : string) (pl : Z) : GameEngine :=
  mkEngine rc pl waiting_for_opponent false false false false 0%Z 0%Z None
    50 50 "stop" "stop" 50 50 0 0 INITIAL_BALL_SPEED.

(** The events dict returned by [update]; [score] is [None] or the number
    of the scoring player. *)
Record Events := mkEvents {
  paddle_hit : bool;
  wall_hit : bool;
  score : option Z;
  game_over : bool
}.

Definition no_events : Events := mkEvents false false None false.

Definition set_paddle_hit (ev : Events) : Events :=
  mkEvents true (wall_hit ev) (score ev) (game_over ev).
Definition set_wall_hit (ev : Events) : Events :=
  mkEvents (paddle_hit ev) true (score ev) (game_over ev).
Definition set_score (p : Z) (ev : Events) : Events :=
  mkEvents (paddle_hit ev) (wall_hit ev) (Some p) (game_over ev).

(** [player_join]: returns the new engine and the boolean result. *)
Definition player_join (player_num : Z) (e : GameEngine) : GameEngine * bool :=
  if (player_num =? 1)%Z then
    let e1 := set_player1_connected true e in
    ((if player2_connected e1 then set_status waiting_for_ready e1 else e1), true)
  else if (player_num =? 2)%Z then
    let e1 := set_player2_connected true e in
    ((if player1_connected e1 then set_status waiting_for_ready e1 else e1), true)
  else (e, false).

(** [reset_ball]; [angle] is the value drawn by
    [random.uniform(-pi/4, pi/4)]. *)
Definition reset_ball (serve_to_player : Z) (angle : R) (e : GameEngine) : GameEngine :=
  let e1 := set_ball_speed INITIAL_BALL_SPEED (set_ball_y 50 (set_ball_x 50 e)) in
  let direction : R := if (serve_to_player =? 2)%Z then 1 else -1 in
  let e2 := set_ball_velocity_x (direction * ball_speed e1 * cos angle) e1 in
  set_ball_velocity_y (ball_speed e2 * sin angle) e2.

(** [start_game]; [choice] is the value drawn by [random.choice([1, 2])]. *)
Definition start_game (choice : Z) (angle : R) (e : GameEngine) : GameEngine :=
  reset_ball choice angle (set_status playing e).

Definition player_ready (player_num : Z) (choice : Z) (angle : R) (e : GameEngine)
  : GameEngine :=
  let e1 :=
    if (player_num =? 1)%Z then set_player1_ready true e
    else if (player_num =? 2)%Z then set_player2_ready true e
    else e in
  if player1_ready e1 && player2_ready e1 && status_eqb (status e1) waiting_for_ready
  then start_game choice angle e1
  else e1.

Definition set_paddle_direction (player_num : Z) (direction : string) (e : GameEngine)
  : GameEngine :=
  if (player_num =? 1)%Z then set_p1_direction direction e
  else if (player_num =? 2)%Z then set_p2_direction direction e
  else e.

(** [_update_paddles]; [delta_time] is not read by the source. *)
Definition update_paddles (delta_time : R) (e : GameEngine) : GameEngine :=
  let e1 :=
    if String.eqb (p1_direction e) "up" then set_p1_y (p1_y e - PADDLE_SPEED) e
    else if String.eqb (p1_direction e) "down" then set_p1_y (p1_y e + PADDLE_SPEED) e
    else e in
  let e2 :=
    if String.eqb (p2_direction e1) "up" then set_p2_y (p2_y e1 - PADDLE_SPEED) e1
    else if String.eqb (p2_direction e1) "down" then set_p2_y (p2_y e1 + PADDLE_SPEED) e1
    else e1 in
  let paddle_half_height := PADDLE_HEIGHT / 2 in
  let e3 := set_p1_y (py_max paddle_half_height
                        (py_min (FIELD_HEIGHT - paddle_half_height) (p1_y e2))) e2 in
  set_p2_y (py_max paddle_half_height
              (py_min (FIELD_HEIGHT - paddle_half_height) (p2_y e3))) e3.

(** [_check_paddle_collision(player_num, events)]. *)
Definition check_paddle_collision (player_num : Z) (e : GameEngine) (ev : Events)
  : GameEngine * Events :=
  let '(paddle_x, paddle_y, ball_moving_towards_paddle) :=
    if (player_num =? 1)%Z then (PADDLE_WIDTH, p1_y e, Rltb (ball_velocity_x e) 0)
    else (FIELD_WIDTH - PADDLE_WIDTH, p2_y e, Rltb 0 (ball_velocity_x e)) in
  if negb ball_moving_towards_paddle then (e, ev) else
  let ball_half_size := BALL_SIZE / 2 in
  let paddle_half_height := PADDLE_HEIGHT / 2 in
  let paddle_half_width := PADDLE_WIDTH / 2 in
  let ball_left := ball_x e - ball_half_size in
  let ball_right := ball_x e + ball_half_size in
  let ball_top := ball_y e - ball_half_size in
  let ball_bottom := ball_y e + ball_half_size in
  let paddle_left := paddle_x - paddle_half_width in
  let paddle_right := paddle_x + paddle_half_width in
  let paddle_top := paddle_y - paddle_half_height in
  let paddle_bottom := paddle_y + paddle_half_height in
  if Rleb paddle_left ball_right && Rleb ball_left paddle_right &&
     Rleb paddle_top ball_bottom && Rleb ball_top paddle_bottom then
    let ev1 := set_paddle_hit ev in
    let e1 := set_ball_velocity_x (- ball_velocity_x e) e in
    let hit_pos := (ball_y e1 - paddle_y) / paddle_half_height in
    let e2 := set_ball_velocity_y (ball_velocity_y e1 + hit_pos * 0.5) e1 in
    let current_speed := sqrt (ball_velocity_x e2 ^ 2 + ball_velocity_y e2 ^ 2) in
    let new_speed := py_min (current_speed * SPEED_INCREASE_FACTOR) MAX_BALL_SPEED in
    let e3 :=
      if Rltb 0 current_speed then
        let e2' := set_ball_velocity_x (ball_velocity_x e2 / current_speed * new_speed) e2 in
        set_ball_velocity_y (ball_velocity_y e2' / current_speed * new_speed) e2'
      else e2 in
    let e4 :=
      if (player_num =? 1)%Z then set_ball_x (paddle_right + ball_half_size + 0.1) e3
      else set_ball_x (paddle_left - ball_half_size - 0.1) e3 in
    (e4, ev1)
  else (e, ev).

(** [_handle_score]; [angle] is the draw of the [reset_ball] it may call. *)
Definition handle_score (angle : R) (e : GameEngine) : GameEngine :=
  if (points_limit e <=? score_p1 e)%Z then
    set_status finished (set_winner (Some "Player 1") e)
  else if (points_limit e <=? score_p2 e)%Z then
    set_status finished (set_winner (Some "Player 2") e)
  else
    let serve_to := if (score_p1 e <? score_p2 e)%Z then 1%Z else 2%Z in
    reset_ball serve_to angle e.

(** [_update_ball(delta_time, events)]. *)
Definition update_ball (delta_time angle : R) (e : GameEngine) (ev : Events)
  : GameEngine * Events :=
  let e1 := set_ball_y (ball_y e + ball_velocity_y e)
              (set_ball_x (ball_x e + ball_velocity_x e) e) in
  let ball_half_size := BALL_SIZE / 2 in
  let '(e2, ev2) :=
    if Rleb (ball_y e1 - ball_half_size) 0 then
      (set_ball_velocity_y (Rabs (ball_velocity_y e1)) (set_ball_y ball_half_size e1),
       set_wall_hit ev)
    else if Rleb FIELD_HEIGHT (ball_y e1 + ball_half_size) then
      (set_ball_velocity_y (- Rabs (ball_velocity_y e1))
         (set_ball_y (FIELD_HEIGHT - ball_half_size) e1),
       set_wall_hit ev)
    else (e1, ev) in
  let '(e3, ev3) := check_paddle_collision 1 e2 ev2 in
  let '(e4, ev4) := check_paddle_collision 2 e3 ev3 in
  if Rleb (ball_x e4) 0 then
    let e5 := set_score_p2 (score_p2 e4 + 1)%Z e4 in
    (handle_score angle e5, set_score 2 ev4)
  else if Rleb FIELD_WIDTH (ball_x e4) then
    let e5 := set_score_p1 (score_p1 e4 + 1)%Z e4 in
    (handle_score angle e5, set_score 1 ev4)
  else (e4, ev4).

(** [update(delta_time)]; [angle] is the draw of a serve on this tick. *)
Definition update (delta_time angle : R) (e : GameEngine) : GameEngine * Events :=
  let events := no_events in
  if negb (status_eqb (status e) playing) then (e, events) else
  let e1 := update_paddles delta_time e in
  update_ball delta_time angle e1 events.

(** The public operations of the engine, with the random draws they use. *)
Inductive Op :=
  | OpJoin (player_num : Z)
  | OpReady (player_num : Z) (choice : Z) (angle : R)
  | OpSetDirection (player_num : Z) (direction : string)
  | OpUpdate (delta_time angle : R)
  | OpStartGame (choice : Z) (angle : R).

Definition step (op : Op) (e : GameEngine) : GameEngine :=
  match op with
  | OpJoin n => fst (player_join n e)
  | OpReady n c a => player_ready n c a e
  | OpSetDirection n d => set_paddle_direction n d e
  | OpUpdate dt a => fst (update dt a e)
  | OpStartGame c a => start_game c a e
  end.

Fixpoint run (ops : list Op) (e : GameEngine) : GameEngine :=
  match ops with
  | [] => e
  | op :: rest => run rest (step op e)
  end.

(** A sequence of update ticks, each with its time step and random draw. *)
Fixpoint run_updates (ticks : list (R * R)) (e : GameEngine) : GameEngine :=
  match ticks with
  | [] => e
  | (dt, a) :: rest => run_updates rest (fst (update dt a e))
  end.

(** Engines of the tests of [test_engine.py]: a tick away from a point for
    player 1 (ball at x = 99 moving right, away from paddle 2), with the
    given scores. *)
Definition before_p1_point (s1 s2 : Z) : GameEngine :=
  mkEngine "TEST019" 5 playing true true true true s1 s2 None
    50 50 "stop" "stop" 99 10 1.5 0 INITIAL_BALL_SPEED.

(** A tick away from a point for player 2 (ball at x = 1 moving left, away
    from paddle 1), with the given scores. *)
Definition before_p2_point (s1 s2 : Z) : GameEngine :=
  mkEngine "TEST017" 5 playing true true true true s1 s2 None
    50 50 "stop" "stop" 1 10 (-1.5) 0 INITIAL_BALL_SPEED.

(** A tick away from a hit on paddle 1, ten units below its centre. *)
Definition before_p1_hit : GameEngine :=
  mkEngine "TEST029" 5 playing true true true true 0%Z 0%Z None
    50 50 "stop" "stop" 4 60 (-1) 0 INITIAL_BALL_SPEED.

(** Position of a status along
    waiting_for_opponent -> waiting_for_ready -> playing -> finished. *)
Definition rank (s : Status) : nat :=
  match s with
  | waiting_for_opponent => 0
  | waiting_for_ready => 1
  | playing => 2
  | finished => 3
  end.

(** Speed of the ball: the magnitude of its velocity vector. *)
Definition speed_of (e : GameEngine) : R :=
  sqrt (ball_velocity_x e ^ 2 + ball_velocity_y e ^ 2).

(** The attributes no tick of the game is meant to touch: the room, the
    limit, the players' flags and the paddle directions. *)
Definition settings (e : GameEngine) :=
  (room_code e, points_limit e, player1_ready e, player2_ready e,
   player1_connected e, player2_connected e, p1_direction e, p2_direction e).

End Engine.

(* ================================================================== *)
(** ** The websocket consumer ([pong/consumers.py])

    Each handler ([connect], [disconnect], [receive], one iteration of
    [game_loop]) is one atomic step of the server: interleavings at the
    handlers' [await] points are not modelled. *)

Module Consumer.

Local Set Warnings "-register-all".

(** Decoded JSON values; numbers are the JSON integers. *)
Inductive Json :=
  | JNull
  | JBool (b : bool)
  | JNum (n : Z)
  | JStr (s : string)
  | JArr (l : list Json)
  | JObj (l : list (string * Json)).

(** [dict.get(key)] on the dict built by [json.loads]: for a repeated key
    the last value wins. *)
Fixpoint assoc_last (key : string) (l : list (string * Json)) : option Json :=
  match l with
  | [] => None
  | (k, v) :: t =>
      match assoc_last key t with
      | Some w => Some w
      | None => if String.eqb key k then Some v else None
      end
  end.

(** [dict.get(key, default)]. *)
Definition get_or (key : string) (default : Json) (data : list (string * Json)) : Json :=
  match assoc_last key data with Some v => v | None => default end.

(** [value == 'text'] for a decoded JSON value. *)
Definition json_eq_str (j : Json) (s : string) : bool :=
  match j with JStr t => String.eqb t s | _ => false end.

Definition opt_json_eq_str (j : option Json) (s : string) : bool :=
  match j with Some v => json_eq_str v s | None => false end.

(** The two values [self.role] is ever set to: ["player"], ["observer"]. *)
Inductive Role := RolePlayer | RoleObserver.

(** Channel names are the natural numbers. *)
Definition channel := nat.

(** An entry of [ACTIVE_ROOMS]; [task] records a game loop that is
    running (created and neither done nor cancelled). *)
Record Room := mkRoom {
  engine : option Engine.GameEngine;
  task : bool;
  players : gmap Z channel;
  observers : list channel
}.

(** The attributes of a [PongConsumer] set by [connect]. *)
Record Consumer := mkConsumer {
  room_code : string;
  role : option Role;
  player_num : option Z
}.

(** The module-level [ACTIVE_ROOMS] dict and the connected consumers,
    by channel name. *)
Record Sys := mkSys {
  ACTIVE_ROOMS : gmap string Room;
  consumers : gmap channel Consumer
}.

Definition sys0 : Sys := mkSys ∅ ∅.

Definition empty_room : Room := mkRoom None false ∅ [].

Definition with_engine (v : option Engine.GameEngine) (r : Room) : Room :=
  mkRoom v (task r) (players r) (observers r).
Definition with_task (v : bool) (r : Room) : Room :=
  mkRoom (engine r) v (players r) (observers r).
Definition with_players (v : gmap Z channel) (r : Room) : Room :=
  mkRoom (engine r) (task r) v (observers r).
Definition with_observers (v : list channel) (r : Room) : Room :=
  mkRoom (engine r) (task r) (players r) v.

Definition set_role (v : option Role) (cs : Consumer) : Consumer :=
  mkConsumer (room_code cs) v (player_num cs).
Definition set_player_num (v : option Z) (cs : Consumer) : Consumer :=
  mkConsumer (room_code cs) (role cs) v.

Definition set_room (rc : string) (r : Room) (s : Sys) : Sys :=
  mkSys (<[rc := r]> (ACTIVE_ROOMS s)) (consumers s).
Definition set_consumer (c : channel) (cs : Consumer) (s : Sys) : Sys :=
  mkSys (ACTIVE_ROOMS s) (<[c := cs]> (consumers s)).

(** Messages sent to one websocket ([self.send]) or to the room's group
    ([group_send]). *)
Inductive OutMsg :=
  | MError (message : string)
  | MUnknownType (message_type : option Json)
  | MRoomCreated (rc : string) (points_limit : Z)
  | MJoinedAsObserver (rc : string)
  | MJoinedAsPlayer (pn : option Z) (rc : string)
  | MStatusChange (s : Engine.Status)
  | MPlayerDisconnected (pn : Z)
  | MGameUpdate (e : Engine.GameEngine)
  | MGameOver (e : Engine.GameEngine).

Inductive Out :=
  | ToSelf (c : channel) (m : OutMsg)
  | ToGroup (rc : string) (m : OutMsg).

(** Outcome of a handler: it returns, raises an exception (caught by
    [receive]), or takes an input the model does not cover (a
    [points_limit] that is not an integer). *)
Inductive Result :=
  | Done (s : Sys) (outs : list Out)
  | Raised (s : Sys) (outs : list Out) (message : string)
  | OutOfModel.

(** Python truthiness of [self.player_num]. *)
Definition truthy_num (o : option Z) : bool :=
  match o with Some k => negb (k =? 0)%Z | None => false end.

Definition is_player (r : option Role) : bool :=
  match r with Some RolePlayer => true | _ => false end.

(** [list.remove(x)]: drops the first occurrence. *)
Fixpoint remove_first (c : channel) (l : list channel) : list channel :=
  match l with
  | [] => []
  | x :: t => if Nat.eqb x c then t else x :: remove_first c t
  end.

(** [connect], for a fresh channel name [c] and the URL's room code. *)
Definition connect (c : channel) (rc : string) (s : Sys) : Sys :=
  let s1 := set_consumer c (mkConsumer rc None None) s in
  match ACTIVE_ROOMS s1 !! rc with
  | Some _ => s1
  | None => set_room rc empty_room s1
  end.

(** The clean-up of [disconnect] for the consumer's role: a player frees
    its slot, cancels the game loop and notifies the group; an observer
    leaves the observer list. *)
Definition leave_room (c : channel) (cs : Consumer) (room : Room) : Room * list Out :=
  match role cs, player_num cs with
  | Some RolePlayer, Some k =>
      if (k =? 0)%Z then (room, [])
      else (with_task false (with_players (delete k (players room)) room),
            [ToGroup (room_code cs) (MPlayerDisconnected k)])
  | Some RoleObserver, _ =>
      (with_observers (remove_first c (observers room)) room, [])
  | _, _ => (room, [])
  end.

(** [disconnect]: the consumer leaves the group, then cleans up its room,
    which is deleted once it has no player and no observer. *)
Definition disconnect (c : channel) (s : Sys) : Sys * list Out :=
  match consumers s !! c with
  | None => (s, [])
  | Some cs =>
      let s1 := mkSys (ACTIVE_ROOMS s) (delete c (consumers s)) in
      let rc := room_code cs in
      match ACTIVE_ROOMS s1 !! rc with
      | None => (s1, [])
      | Some room =>
          let '(room1, outs) := leave_room c cs room in
          if bool_decide (players room1 = ∅) && bool_decide (observers room1 = [])
          then (mkSys (delete rc (ACTIVE_ROOMS s1)) (consumers s1), outs)
          else (set_room rc room1 s1, outs)
      end
  end.

(** [handle_create_room]. *)
Definition handle_create_room (c : channel) (cs : Consumer)
    (data : list (string * Json)) (s : Sys) : Result :=
  let rc := room_code cs in
  let points_limit := get_or "points_limit" (JNum 5) data in
  match ACTIVE_ROOMS s !! rc with
  | None => Done s []
  | Some room =>
      match engine room with
      | Some _ => Done s []
      | None =>
          match points_limit with
          | JNum pl =>
              Done (set_room rc (with_engine (Some (Engine.init rc pl)) room) s)
                   [ToSelf c (MRoomCreated rc pl)]
          | _ => OutOfModel
          end
      end
  end.

(** [handle_join_game]. *)
Definition handle_join_game (c : channel) (cs : Consumer)
    (data : list (string * Json)) (s : Sys) : Result :=
  let role0 := get_or "role" (JStr "player") data in
  let rc := room_code cs in
  match ACTIVE_ROOMS s !! rc with
  | None => Done s [ToSelf c (MError "Room does not exist")]
  | Some room =>
      let e0 := match engine room with Some e => e | None => Engine.init rc 5 end in
      (* [role == 'player']: slot 1, else slot 2, else [role = 'observer'] *)
      let '(players1, cs1, e1, as_observer) :=
        if json_eq_str role0 "player" then
          match players room !! 1%Z with
          | None => (<[1%Z := c]> (players room), set_player_num (Some 1%Z) cs,
                     fst (Engine.player_join 1 e0), false)
          | Some _ =>
              match players room !! 2%Z with
              | None => (<[2%Z := c]> (players room), set_player_num (Some 2%Z) cs,
                         fst (Engine.player_join 2 e0), false)
              | Some _ => (players room, cs, e0, true)
              end
          end
        else (players room, cs, e0, json_eq_str role0 "observer") in
      let room1 := with_engine (Some e1) (with_players players1 room) in
      let status_msg := ToGroup rc (MStatusChange (Engine.status e1)) in
      if as_observer then
        Done (set_consumer c (set_role (Some RoleObserver) cs1)
                (set_room rc (with_observers (observers room1 ++ [c]) room1) s))
             [ToSelf c (MJoinedAsObserver rc); status_msg]
      else
        Done (set_consumer c (set_role (Some RolePlayer) cs1) (set_room rc room1 s))
             [ToSelf c (MJoinedAsPlayer (player_num cs1) rc); status_msg]
  end.

(** [handle_player_ready]; [choice] and [angle] are the random draws of
    [start_game]. *)
Definition handle_player_ready (c : channel) (cs : Consumer) (choice : Z) (angle : R)
    (s : Sys) : Result :=
  let rc := room_code cs in
  if negb (is_player (role cs) && truthy_num (player_num cs)) then Done s [] else
  match ACTIVE_ROOMS s !! rc with
  | None => Done s []
  | Some room =>
      match engine room with
      | None => Raised s [] "'NoneType' object has no attribute 'player_ready'"
      | Some e =>
          let k := match player_num cs with Some k => k | None => 0%Z end in
          let e1 := Engine.player_ready k choice angle e in
          let room1 := with_engine (Some e1) room in
          let room2 :=
            if Engine.status_eqb (Engine.status e1) Engine.playing && negb (task room1)
            then with_task true room1 else room1 in
          Done (set_room rc room2 s) [ToGroup rc (MStatusChange (Engine.status e1))]
      end
  end.

(** [handle_move_paddle]. *)
Definition handle_move_paddle (c : channel) (cs : Consumer)
    (data : list (string * Json)) (s : Sys) : Result :=
  let rc := room_code cs in
  if negb (is_player (role cs) && truthy_num (player_num cs)) then Done s [] else
  match ACTIVE_ROOMS s !! rc with
  | None => Done s []
  | Some room =>
      match engine room with
      | None => Raised s [] "'NoneType' object has no attribute 'status'"
      | Some e =>
          if negb (Engine.status_eqb (Engine.status e) Engine.playing) then Done s [] else
          let k := match player_num cs with Some k => k | None => 0%Z end in
          match get_or "direction" (JStr "stop") data with
          | JStr d =>
              if String.eqb d "up" || String.eqb d "down" || String.eqb d "stop" then
                Done (set_room rc
                        (with_engine (Some (Engine.set_paddle_direction k d e)) room) s) []
              else Done s []
          | _ => Done s []
          end
      end
  end.

(** A websocket frame: text that is not JSON, JSON that is not an object
    (of the named Python type), or a JSON object. *)
Inductive Inbound :=
  | InvalidJson
  | NotAnObject (type_name : string)
  | Payload (data : list (string * Json)).

(** [receive]: dispatch on [type]; an exception raised by a handler is
    answered with an error message. *)
Definition receive (c : channel) (m : Inbound) (choice : Z) (angle : R) (s : Sys)
    : option (Sys * list Out) :=
  match consumers s !! c with
  | None => None
  | Some cs =>
      match m with
      | InvalidJson => Some (s, [ToSelf c (MError "Invalid JSON")])
      | NotAnObject ty =>
          Some (s, [ToSelf c (MError (String.append "'"
                      (String.append ty "' object has no attribute 'get'")))])
      | Payload data =>
          let message_type := assoc_last "type" data in
          let r :=
            if opt_json_eq_str message_type "create_room" then handle_create_room c cs data s
            else if opt_json_eq_str message_type "join_game" then handle_join_game c cs data s
            else if opt_json_eq_str message_type "player_ready" then
              handle_player_ready c cs choice angle s
            else if opt_json_eq_str message_type "move_paddle" then
              handle_move_paddle c cs data s
            else Done s [ToSelf c (MUnknownType message_type)] in
          match r with
          | Done s' outs => Some (s', outs)
          | Raised s' outs msg => Some (s', outs ++ [ToSelf c (MError msg)])
          | OutOfModel => None
          end
      end
  end.

(** One iteration of the [game_loop] task of room [rc]. *)
Definition tick (rc : string) (dt : R) (angle : R) (s : Sys) : option (Sys * list Out) :=
  match ACTIVE_ROOMS s !! rc with
  | None => None
  | Some room =>
      match engine room with
      | None => None
      | Some e =>
          if negb (task room) then None
          else if Engine.status_eqb (Engine.status e) Engine.playing then
            let e1 := fst (Engine.update dt angle e) in
            let fin := Engine.status_eqb (Engine.status e1) Engine.finished in
            Some (set_room rc (with_task (negb fin) (with_engine (Some e1) room)) s,
                  ToGroup rc (MGameUpdate e1)
                    :: (if fin then [ToGroup rc (MGameOver e1)] else []))
          else Some (set_room rc (with_task false room) s, [])
      end
  end.

(** Events of the server: a connection (with a fresh channel name), a
    disconnection, an inbound frame, a game-loop iteration. *)
Inductive SysEvent :=
  | EvConnect (c : channel) (rc : string)
  | EvDisconnect (c : channel)
  | EvReceive (c : channel) (m : Inbound) (choice : Z) (angle : R)
  | EvTick (rc : string) (dt : R) (angle : R).

Definition sys_step (ev : SysEvent) (s : Sys) : option (Sys * list Out) :=
  match ev with
  | EvConnect c rc =>
      match consumers s !! c with None => Some (connect c rc s, []) | Some _ => None end
  | EvDisconnect c =>
      match consumers s !! c with Some _ => Some (disconnect c s) | None => None end
  | EvReceive c m choice angle => receive c m choice angle s
  | EvTick rc dt angle => tick rc dt angle s
  end.

Fixpoint run_sys (evs : list SysEvent) (s : Sys) : option Sys :=
  match evs with
  | [] => Some s
  | ev :: t =>
      match sys_step ev s with
      | Some (s', _) => run_sys t s'
      | None => None
      end
  end.

(** States of the server reachable from start-up. *)
Definition reachable (s : Sys) : Prop := exists evs, run_sys evs sys0 = Some s.

(** The direction stored for player [k]. *)
Definition paddle_direction (k : Z) (e : Engine.GameEngine) : string :=
  if (k =? 1)%Z then Engine.p1_direction e else Engine.p2_direction e.

(** Two players in room "ABC123" who are both ready: the game is on. *)
Definition demo_events : list SysEvent :=
  [EvConnect 1 "ABC123"; EvConnect 2 "ABC123";
   EvReceive 1 (Payload [("type", JStr "join_game"); ("role", JStr "player")]) 1 0;
   EvReceive 2 (Payload [("type", JStr "join_game"); ("role", JStr "player")]) 1 0;
   EvReceive 1 (Payload [("type", JStr "player_ready")]) 1 0;
   EvReceive 2 (Payload [("type", JStr "player_ready")]) 1 0].

Definition demo_sys : Sys :=
  match run_sys demo_events sys0 with Some s => s | None => sys0 end.

(** A third connection to the full room. *)
Definition demo_sys3 : Sys :=
  match run_sys (demo_events ++ [EvConnect 3 "ABC123"]) sys0 with
  | Some s => s | None => sys0 end.

(** Python's [direction in ['up', 'down', 'stop']]. *)
Definition valid_direction (j : Json) : bool :=
  match j with
  | JStr d => String.eqb d "up" || String.eqb d "down" || String.eqb d "stop"
  | _ => false
  end.

(** Invariant of the server: a connected consumer holding a player number
    [k] is player 1 or 2, its room exists, slot [k] of that room holds its
    channel, and the room has an engine. *)
Definition player_inv (s : Sys) : Prop :=
  forall c cs k,
    consumers s !! c = Some cs -> player_num cs = Some k ->
    (k = 1 \/ k = 2)%Z /\
    exists room e, ACTIVE_ROOMS s !! room_code cs = Some room /\
                   players room !! k = Some c /\ engine room = Some e.

End Consumer.

(* ================================================================== *)
(** ** Proofs about the engine *)

Module EngineProofs.
Import Engine.
Local Open Scope R_scope.

Ltac case_ifs :=
  repeat match goal with
         | |- context [if ?b then _ else _] => destruct b
         end.

Lemma Rleb_true a b : a <= b -> Rleb a b = true.
Proof. intro; unfold Rleb; destruct (Rle_dec a b); [reflexivity|contradiction]. Qed.
Lemma Rleb_false a b : ~ a <= b -> Rleb a b = false.
Proof. intro; unfold Rleb; destruct (Rle_dec a b); [contradiction|reflexivity]. Qed.
Lemma Rltb_true a b : a < b -> Rltb a b = true.
Proof. intro; unfold Rltb; destruct (Rlt_dec a b); [reflexivity|contradiction]. Qed.
Lemma Rltb_false a b : ~ a < b -> Rltb a b = false.
Proof. intro; unfold Rltb; destruct (Rlt_dec a b); [contradiction|reflexivity]. Qed.
Lemma Rleb_iff a b : Rleb a b = true <-> a <= b.
Proof. unfold Rleb; destruct (Rle_dec a b); split; intro; auto; discriminate. Qed.
Lemma Rltb_iff a b : Rltb a b = true <-> a < b.
Proof. unfold Rltb; destruct (Rlt_dec a b); split; intro; auto; discriminate. Qed.

Lemma py_min_l a b : ~ b < a -> py_min a b = a.
Proof. intro; unfold py_min; rewrite Rltb_false; auto. Qed.
Lemma py_min_r a b : b < a -> py_min a b = b.
Proof. intro; unfold py_min; rewrite Rltb_true; auto. Qed.
Lemma py_max_l a b : ~ a < b -> py_max a b = a.
Proof. intro; unfold py_max; rewrite Rltb_false; auto. Qed.
Lemma py_max_r a b : a < b -> py_max a b = b.
Proof. intro; unfold py_max; rewrite Rltb_true; auto. Qed.

Ltac unfold_consts :=
  unfold FIELD_WIDTH, FIELD_HEIGHT, PADDLE_WIDTH, PADDLE_HEIGHT, BALL_SIZE,
    PADDLE_SPEED, INITIAL_BALL_SPEED, SPEED_INCREASE_FACTOR, MAX_BALL_SPEED.

(** Reduction that leaves the real arithmetic and the comparisons alone. *)
Ltac rcbn := cbn -[Rleb Rltb py_min py_max Rle_dec Rlt_dec Rplus Rminus Rmult Rdiv Ropp
                   Rabs sqrt cos sin IZR pow Rinv
                   FIELD_WIDTH FIELD_HEIGHT PADDLE_WIDTH PADDLE_HEIGHT BALL_SIZE
                   PADDLE_SPEED INITIAL_BALL_SPEED SPEED_INCREASE_FACTOR MAX_BALL_SPEED].

(** Decide one comparison of the goal on concrete numbers. *)
Ltac rstep :=
  match goal with
  | |- context [Rleb ?x ?y] =>
      first [ rewrite (Rleb_true x y) by (unfold_consts; lra)
            | rewrite (Rleb_false x y) by (unfold_consts; lra) ]
  | |- context [Rltb ?x ?y] =>
      first [ rewrite (Rltb_true x y) by (unfold_consts; lra)
            | rewrite (Rltb_false x y) by (unfold_consts; lra) ]
  | |- context [py_min ?x ?y] =>
      first [ rewrite (py_min_l x y) by (unfold_consts; lra)
            | rewrite (py_min_r x y) by (unfold_consts; lra) ]
  | |- context [py_max ?x ?y] =>
      first [ rewrite (py_max_l x y) by (unfold_consts; lra)
            | rewrite (py_max_r x y) by (unfold_consts; lra) ]
  | |- context [(?x <=? ?y)%Z] =>
      let v := eval vm_compute in (x <=? y)%Z in change (x <=? y)%Z with v
  | |- context [(?x <? ?y)%Z] =>
      let v := eval vm_compute in (x <? y)%Z in change (x <? y)%Z with v
  | |- context [(?x =? ?y)%Z] =>
      let v := eval vm_compute in (x =? y)%Z in change (x =? y)%Z with v
  end.

Ltac reval := repeat (rcbn; rstep); rcbn.

Ltac unfold_update :=
  unfold update, update_paddles, update_ball, check_paddle_collision,
    handle_score, reset_ball.

(** Everything an update keeps apart from the ball. *)
Definition same_match (e e' : GameEngine) : Prop :=
  status e' = status e /\ score_p1 e' = score_p1 e /\ score_p2 e' = score_p2 e /\
  winner e' = winner e /\ points_limit e' = points_limit e /\
  p1_y e' = p1_y e /\ p2_y e' = p2_y e.

Lemma check_paddle_collision_same_match n e ev :
  same_match e (fst (check_paddle_collision n e ev)) /\
  score (snd (check_paddle_collision n e ev)) = score ev.
Proof.
  destruct e; unfold check_paddle_collision, same_match.
  destruct (n =? 1)%Z; simpl; case_ifs; simpl; repeat split; reflexivity.
Qed.

Lemma update_ball_cases dt a e ev :
  exists e4 ev4,
    same_match e e4 /\ score ev4 = score ev /\
    update_ball dt a e ev =
      if Rleb (ball_x e4) 0 then
        (handle_score a (set_score_p2 (score_p2 e4 + 1)%Z e4), set_score 2 ev4)
      else if Rleb FIELD_WIDTH (ball_x e4) then
        (handle_score a (set_score_p1 (score_p1 e4 + 1)%Z e4), set_score 1 ev4)
      else (e4, ev4).
Proof.
  unfold update_ball.
  match goal with
  | |- context [let '(_, _) := ?w in _] =>
      assert (Hw : same_match e (fst w) /\ score (snd w) = score ev)
        by (destruct e; unfold same_match; simpl; case_ifs; simpl;
            repeat split; reflexivity);
      destruct w as [e2 ev2]
  end.
  destruct Hw as [Hs2 Hv2]; simpl in Hs2, Hv2.
  destruct (check_paddle_collision 1 e2 ev2) as [e3 ev3] eqn:H3.
  pose proof (check_paddle_collision_same_match 1 e2 ev2) as [Hs3 Hv3].
  rewrite H3 in Hs3, Hv3; simpl in Hs3, Hv3.
  destruct (check_paddle_collision 2 e3 ev3) as [e4 ev4] eqn:H4.
  pose proof (check_paddle_collision_same_match 2 e3 ev3) as [Hs4 Hv4].
  rewrite H4 in Hs4, Hv4; simpl in Hs4, Hv4.
  exists e4, ev4.
  unfold same_match in *.
  repeat split; try reflexivity; try congruence; intuition congruence.
Qed.

Lemma handle_score_spec a e :
  let e' := handle_score a e in
  score_p1 e' = score_p1 e /\ score_p2 e' = score_p2 e /\
  points_limit e' = points_limit e /\ p1_y e' = p1_y e /\ p2_y e' = p2_y e /\
  (if (points_limit e <=? score_p1 e)%Z then
     status e' = finished /\ winner e' = Some "Player 1"%string /\
     ball_x e' = ball_x e /\ ball_y e' = ball_y e
   else if (points_limit e <=? score_p2 e)%Z then
     status e' = finished /\ winner e' = Some "Player 2"%string /\
     ball_x e' = ball_x e /\ ball_y e' = ball_y e
   else
     status e' = status e /\ winner e' = winner e /\
     ball_x e' = 50 /\ ball_y e' = 50 /\
     ball_velocity_x e' =
       (if (score_p1 e <? score_p2 e)%Z then -1 else 1) * INITIAL_BALL_SPEED * cos a).
Proof.
  destruct e; unfold handle_score, reset_ball; simpl.
  destruct (points_limit0 <=? score_p3)%Z; simpl; [repeat split; reflexivity|].
  destruct (points_limit0 <=? score_p4)%Z; simpl; [repeat split; reflexivity|].
  destruct (score_p3 <? score_p4)%Z; simpl; repeat split; reflexivity.
Qed.

Lemma clamp_bounds y :
  10 <= py_max (PADDLE_HEIGHT / 2) (py_min (FIELD_HEIGHT - PADDLE_HEIGHT / 2) y) <= 90.
Proof.
  unfold py_max, py_min, Rltb, PADDLE_HEIGHT, FIELD_HEIGHT.
  repeat (destruct (Rlt_dec _ _)); lra.
Qed.

Lemma update_paddles_bounds dt e :
  10 <= p1_y (update_paddles dt e) <= 90 /\ 10 <= p2_y (update_paddles dt e) <= 90.
Proof.
  unfold update_paddles.
  split.
  - match goal with |- context [py_min _ (p1_y ?x)] => generalize (p1_y x) end.
    intro y; destruct e; simpl; case_ifs; simpl; apply clamp_bounds.
  - destruct e; simpl; case_ifs; simpl; apply clamp_bounds.
Qed.

Lemma update_paddles_same dt e :
  let e' := update_paddles dt e in
  status e' = status e /\ score_p1 e' = score_p1 e /\ score_p2 e' = score_p2 e /\
  winner e' = winner e /\ points_limit e' = points_limit e.
Proof.
  destruct e; unfold update_paddles; simpl; case_ifs; simpl; repeat split; reflexivity.
Qed.

(** Every operation other than [update] leaves the paddles where they are. *)
Lemma step_paddles op e :
  (p1_y (step op e) = p1_y e /\ p2_y (step op e) = p2_y e) \/
  (10 <= p1_y (step op e) <= 90 /\ 10 <= p2_y (step op e) <= 90).
Proof.
  destruct op as [n|n c a|n d|dt a|c a]; simpl.
  - left; destruct e; unfold player_join; simpl; case_ifs; simpl; split; reflexivity.
  - left; destruct e; unfold player_ready, start_game, reset_ball; simpl;
      case_ifs; simpl; case_ifs; simpl; split; reflexivity.
  - left; destruct e; unfold set_paddle_direction; simpl; case_ifs; simpl;
      split; reflexivity.
  - unfold update.
    destruct (negb (status_eqb (status e) playing)); simpl; [left; split; reflexivity|].
    right.
    destruct (update_ball_cases dt a (update_paddles dt e) no_events)
      as (e4 & ev4 & (_ & _ & _ & _ & _ & H1 & H2) & _ & ->).
    pose proof (update_paddles_bounds dt e) as [B1 B2].
    rewrite <- H1, <- H2 in *.
    case_ifs; simpl; try (split; assumption);
      match goal with
      | |- context [handle_score ?a ?x] =>
          pose proof (handle_score_spec a x) as (_ & _ & _ & Q1 & Q2 & _);
          simpl in Q1, Q2; rewrite Q1, Q2; destruct e4; simpl in *; split; assumption
      end.
  - left; destruct e; unfold start_game, reset_ball; simpl; split; reflexivity.
Qed.

(** Claim C7: while the status is not [playing], [update] changes no field
    of the engine (so the paddles stay frozen once [finished]) and reports
    no paddle hit, no wall hit, no score and no game over. *)
Theorem update_not_playing_frozen (dt a : R) (e : GameEngine) :
  status e <> playing ->
  update dt a e = (e, no_events) /\
  paddle_hit no_events = false /\ wall_hit no_events = false /\
  score no_events = None /\ game_over no_events = false.
Proof.
  intro Hst; unfold update.
  destruct (status e) eqn:Hs; try (exfalso; apply Hst; reflexivity);
    simpl; repeat split; reflexivity.
Qed.

Lemma update_not_playing_frozen_witness :
  status (init "ROOM1" 5) <> playing /\
  update (1/60) 0 (init "ROOM1" 5) = (init "ROOM1" 5, no_events) /\
  paddle_hit no_events = false /\ wall_hit no_events = false /\
  score no_events = None /\ game_over no_events = false.
Proof.
  split; [simpl; discriminate|].
  apply update_not_playing_frozen; simpl; discriminate.
Defined.

(** Claim C10: the result of [update] does not depend on [delta_time]:
    with the same random draw, two calls with different time steps give the
    same engine and the same events. *)
Theorem update_ignores_delta_time (dt1 dt2 a : R) (e : GameEngine) :
  update dt1 a e = update dt2 a e.
Proof. reflexivity. Qed.

(** The paddle bounds, preserved by every operation. *)
Lemma run_paddles_bounded ops e :
  10 <= p1_y e <= 90 -> 10 <= p2_y e <= 90 ->
  10 <= p1_y (run ops e) <= 90 /\ 10 <= p2_y (run ops e) <= 90.
Proof.
  revert e; induction ops as [|op ops IH]; intros e H1 H2; simpl; [split; assumption|].
  destruct (step_paddles op e) as [[E1 E2]|[B1 B2]]; apply IH;
    try rewrite E1; try rewrite E2; assumption.
Qed.

(** Claim C6: from a fresh engine, after any sequence of operations (any
    number of up or down ticks, joins, readies, updates), each paddle centre
    lies within [[PADDLE_HEIGHT/2, FIELD_HEIGHT - PADDLE_HEIGHT/2] = [10, 90]]. *)
Theorem paddles_always_clamped (rc : string) (L : Z) (ops : list Op) :
  PADDLE_HEIGHT / 2 <= p1_y (run ops (init rc L)) <= FIELD_HEIGHT - PADDLE_HEIGHT / 2 /\
  PADDLE_HEIGHT / 2 <= p2_y (run ops (init rc L)) <= FIELD_HEIGHT - PADDLE_HEIGHT / 2.
Proof.
  unfold PADDLE_HEIGHT, FIELD_HEIGHT.
  replace (20 / 2) with 10 by lra; replace (100 - 10) with 90 by lra.
  apply run_paddles_bounded; simpl; lra.
Qed.

(** [update] moves the status only from [playing] to [playing] or
    [finished]. *)
Lemma update_status dt a e :
  status (fst (update dt a e)) = status e \/
  (status e = playing /\ status (fst (update dt a e)) = finished).
Proof.
  unfold update.
  destruct (status e) eqn:Hs; simpl; try (left; exact Hs).
  destruct (update_ball_cases dt a (update_paddles dt e) no_events)
    as (e4 & ev4 & (S4 & _) & _ & ->).
  pose proof (update_paddles_same dt e) as (P & _).
  case_ifs; simpl; try (left; congruence);
    match goal with
    | |- context [handle_score ?a ?x] =>
        pose proof (handle_score_spec a x) as (_ & _ & _ & _ & _ & Q);
        revert Q; case_ifs; intros [Q _]; rewrite Q;
        try (right; split; reflexivity); left; destruct e4; simpl in *; congruence
    end.
Qed.

(** Claim C1, refuted: after both players joined and readied, a second
    [player_join 1] (the consumer calls it when a new connection takes a
    freed slot) moves the status from [playing] back to [waiting_for_ready]. *)
Lemma status_regresses_on_rejoin :
  let ops := [OpJoin 1; OpJoin 2; OpReady 1 1 0; OpReady 2 1 0] in
  status (run ops (init "ROOM1" 5)) = playing /\
  status (run (ops ++ [OpJoin 1]) (init "ROOM1" 5)) = waiting_for_ready.
Proof. split; reflexivity. Qed.

(** Claim C1, as the code does it: [player_ready], [set_paddle_direction]
    and [update] never move the status backward (so they keep [finished]);
    [player_join n] sets [waiting_for_ready] whenever the other slot is
    already connected, from any status, and otherwise keeps the status;
    [start_game] sets [playing] from any status. *)
Theorem status_transitions (e : GameEngine) :
  (forall n c a, (rank (status e) <= rank (status (player_ready n c a e)))%nat) /\
  (forall n d, status (set_paddle_direction n d e) = status e) /\
  (forall dt a, (rank (status e) <= rank (status (fst (update dt a e))))%nat) /\
  (forall n, status (fst (player_join n e)) =
     if ((n =? 1)%Z && player2_connected e) || ((n =? 2)%Z && player1_connected e)
     then waiting_for_ready else status e) /\
  (forall c a, status (start_game c a e) = playing).
Proof.
  repeat split.
  - intros n c a; destruct e; unfold player_ready, start_game, reset_ball; simpl.
    repeat match goal with
           | |- context [if ?b then _ else _] => destruct b eqn:?
           end; simpl; try lia;
      repeat match goal with H : (_ && _) = true |- _ => apply andb_prop in H as [? ?] end;
      destruct status0; simpl in *; try discriminate; lia.
  - intros n d; destruct e; unfold set_paddle_direction; simpl; case_ifs; reflexivity.
  - intros dt a; destruct (update_status dt a e) as [->|[-> ->]]; simpl; lia.
  - intros n; destruct e; unfold player_join; simpl.
    destruct (n =? 1)%Z eqn:H1; simpl.
    + apply Z.eqb_eq in H1; subst n; simpl.
      destruct player2_connected0; reflexivity.
    + destruct (n =? 2)%Z; simpl; [destruct player1_connected0|]; reflexivity.
  - intros c a; destruct e; reflexivity.
Qed.

Ltac zbool :=
  repeat match goal with
         | H : (_ <=? _)%Z = true |- _ => apply Z.leb_le in H
         | H : (_ <=? _)%Z = false |- _ => apply Z.leb_gt in H
         | H : (_ <? _)%Z = true |- _ => apply Z.ltb_lt in H
         | H : (_ <? _)%Z = false |- _ => apply Z.ltb_ge in H
         | H : (_ =? _)%Z = true |- _ => apply Z.eqb_eq in H
         | H : (_ =? _)%Z = false |- _ => apply Z.eqb_neq in H
         end.

(** The score invariant of a match with limit [L]. *)
Definition score_inv (L : Z) (e : GameEngine) : Prop :=
  points_limit e = L /\ (status e = playing \/ status e = finished) /\
  (0 <= score_p1 e <= L)%Z /\ (0 <= score_p2 e <= L)%Z /\
  (status e = finished <->
     (score_p1 e = L /\ score_p2 e < L)%Z \/ (score_p2 e = L /\ score_p1 e < L)%Z) /\
  (status e = playing -> (score_p1 e < L)%Z /\ (score_p2 e < L)%Z /\ winner e = None) /\
  (status e = finished ->
     winner e = Some (if (score_p1 e =? L)%Z then "Player 1" else "Player 2")%string).

Lemma score_inv_start L rc c a :
  (0 < L)%Z -> score_inv L (start_game c a (init rc L)).
Proof.
  intro HL; unfold score_inv; simpl.
  repeat split; try lia; try discriminate; try reflexivity.
  all: try (left; reflexivity); intros [[H _]|[H _]]; lia.
Qed.

Lemma score_inv_update L dt a e :
  score_inv L e -> score_inv L (fst (update dt a e)).
Proof.
  intro H; unfold update.
  destruct (status e) eqn:Hs; simpl; try exact H.
  pose proof H as (HL & _ & B1 & B2 & Hfin & Hw & _).
  destruct (Hw Hs) as (Lt1 & Lt2 & Hw0); clear Hw; rename Hw0 into Hw.
  pose proof (update_paddles_same dt e) as (P0 & P1 & P2 & P3 & P4).
  destruct (update_ball_cases dt a (update_paddles dt e) no_events)
    as (e4 & ev4 & (S0 & S1 & S2 & S3 & S4 & _) & _ & ->).
  rewrite P0, Hs in S0; rewrite P1 in S1; rewrite P2 in S2; rewrite P3, Hw in S3;
    rewrite P4, HL in S4.
  case_ifs; simpl.
  - pose proof (handle_score_spec a (set_score_p2 (score_p2 e4 + 1)%Z e4)) as Q.
    destruct e4; simpl in *; subst.
    destruct Q as (Q1 & Q2 & Q3 & _ & _ & Q); unfold score_inv; rewrite Q1, Q2, Q3.
    revert Q; repeat match goal with
                     | |- context [if ?b then _ else _] => destruct b eqn:?
                     end; zbool; try lia;
      intros (Q4 & Q5 & _); rewrite Q4, Q5;
      repeat split; try lia; try discriminate; try tauto.
    all: try (intros [[? ?]|[? ?]]; lia).
    all: try (intro; repeat match goal with
                              | |- context [if ?b then _ else _] => destruct b eqn:?
                              end; zbool; try lia; reflexivity).
  - pose proof (handle_score_spec a (set_score_p1 (score_p1 e4 + 1)%Z e4)) as Q.
    destruct e4; simpl in *; subst.
    destruct Q as (Q1 & Q2 & Q3 & _ & _ & Q); unfold score_inv; rewrite Q1, Q2, Q3.
    revert Q; repeat match goal with
                     | |- context [if ?b then _ else _] => destruct b eqn:?
                     end; zbool; try lia;
      intros (Q4 & Q5 & _); rewrite Q4, Q5;
      repeat split; try lia; try discriminate; try tauto.
    all: try (intros [[? ?]|[? ?]]; lia).
    all: try (intro; repeat match goal with
                              | |- context [if ?b then _ else _] => destruct b eqn:?
                              end; zbool; try lia; reflexivity).
  - unfold score_inv; rewrite S0, S1, S2, S3, S4.
    repeat split; try lia; try discriminate; try tauto.
    all: intros [[? ?]|[? ?]]; lia.
Qed.

Lemma score_inv_run_updates L ticks e :
  score_inv L e -> score_inv L (run_updates ticks e).
Proof.
  revert e; induction ticks as [|[dt a] ticks IH]; intros e H; simpl; [exact H|].
  apply IH, score_inv_update, H.
Qed.

(** A tick on which player 1 scores from 4 points, with limit 5, finishes
    the match with player 1 as winner. *)
Lemma score_tick_p1_from_4 e dt a :
  status e = playing -> points_limit e = 5%Z -> score_p1 e = 4%Z ->
  score (snd (update dt a e)) = Some 1%Z ->
  score_p1 (fst (update dt a e)) = 5%Z /\ status (fst (update dt a e)) = finished /\
  winner (fst (update dt a e)) = Some "Player 1"%string.
Proof.
  intros Hs HL H4; unfold update; rewrite Hs; simpl.
  pose proof (update_paddles_same dt e) as (_ & P1 & _ & _ & P4).
  destruct (update_ball_cases dt a (update_paddles dt e) no_events)
    as (e4 & ev4 & (_ & S1 & _ & _ & S4 & _) & Sev & ->).
  case_ifs; simpl; try (destruct ev4; simpl in *; subst; discriminate).
  intros _.
  rewrite P1, H4 in S1; rewrite P4, HL in S4.
  pose proof (handle_score_spec a (set_score_p1 (score_p1 e4 + 1)%Z e4)) as Q.
  destruct e4; simpl in *; subst.
  destruct Q as (Q1 & _ & _ & _ & _ & Q); simpl in Q; rewrite Q1.
  destruct Q as (Q2 & Q3 & _); split; [reflexivity|split; assumption].
Qed.

(** Claim C2: in a match started with a positive [points_limit] and driven
    by update ticks, the status is [finished] exactly when one of the two
    scores has reached the limit (the other one being below it), no score
    ever passes the limit, and [winner] names the player who reached it;
    in particular a tick on which player 1 scores from 4 with limit 5
    gives [score_p1 = 5], status [finished] and winner ["Player 1"]. *)
Theorem finished_iff_limit_reached (L : Z) (rc : string) (c : Z) (a : R)
    (ticks : list (R * R)) :
  (0 < L)%Z ->
  let e := run_updates ticks (start_game c a (init rc L)) in
  (status e = finished <->
     (score_p1 e = L /\ score_p2 e < L)%Z \/ (score_p2 e = L /\ score_p1 e < L)%Z) /\
  (score_p1 e <= L /\ score_p2 e <= L)%Z /\
  (status e = finished ->
     winner e = Some (if (score_p1 e =? L)%Z then "Player 1" else "Player 2")%string) /\
  (forall e0 dt a0,
     status e0 = playing -> points_limit e0 = 5%Z -> score_p1 e0 = 4%Z ->
     score (snd (update dt a0 e0)) = Some 1%Z ->
     score_p1 (fst (update dt a0 e0)) = 5%Z /\ status (fst (update dt a0 e0)) = finished /\
     winner (fst (update dt a0 e0)) = Some "Player 1"%string).
Proof.
  intros HL e; subst e.
  pose proof (score_inv_run_updates L ticks _ (score_inv_start L rc c a HL))
    as (_ & _ & B1 & B2 & Hfin & _ & Hw).
  split; [exact Hfin|]. split; [lia|]. split; [exact Hw|].
  exact score_tick_p1_from_4.
Qed.

Lemma finished_iff_limit_reached_witness :
  (0 < 5)%Z /\
  (let e := run_updates [] (start_game 1 0 (init "TEST019" 5)) in
   (status e = finished <->
      (score_p1 e = 5 /\ score_p2 e < 5)%Z \/ (score_p2 e = 5 /\ score_p1 e < 5)%Z) /\
   (score_p1 e <= 5 /\ score_p2 e <= 5)%Z /\
   (status e = finished ->
      winner e = Some (if (score_p1 e =? 5)%Z then "Player 1" else "Player 2")%string) /\
   (forall e0 dt a0,
      status e0 = playing -> points_limit e0 = 5%Z -> score_p1 e0 = 4%Z ->
      score (snd (update dt a0 e0)) = Some 1%Z ->
      score_p1 (fst (update dt a0 e0)) = 5%Z /\ status (fst (update dt a0 e0)) = finished /\
      winner (fst (update dt a0 e0)) = Some "Player 1"%string)).
Proof.
  split; [lia|].
  apply (finished_iff_limit_reached 5 "TEST019" 1 0 []); lia.
Defined.

(** The scenario of C2 on the engine of [test_winning_condition_5]. *)
Example winning_tick_scenario :
  let r := update (1/60) 0 (before_p1_point 4 0) in
  score (snd r) = Some 1%Z /\ score_p1 (fst r) = 5%Z /\ status (fst r) = finished /\
  winner (fst r) = Some "Player 1"%string.
Proof.
  unfold before_p1_point; unfold_update; reval.
  repeat split; reflexivity.
Qed.

(** Claim C4, refuted: on the tick that scores the winning point the ball is
    not put back at (50, 50); it stays where it crossed the line. *)
Lemma winning_tick_ball_not_reset :
  let r := update (1/60) 0 (before_p1_point 4 0) in
  score (snd r) = Some 1%Z /\ status (fst r) = finished /\ ball_x (fst r) <> 50.
Proof.
  unfold before_p1_point; unfold_update; reval.
  split; [reflexivity|]. split; [reflexivity|]. lra.
Qed.

(** Claim C4, as the code does it: on every update with a score event,
    either the match goes on ([playing]) and the ball is at exactly
    (50, 50), or the point ends the match ([finished]) and the ball is left
    where it crossed the line ([x <= 0] or [x >= FIELD_WIDTH]). *)
Theorem score_tick_ball_position (dt a : R) (e : GameEngine) :
  score (snd (update dt a e)) <> None ->
  (status (fst (update dt a e)) = playing /\
   ball_x (fst (update dt a e)) = 50 /\ ball_y (fst (update dt a e)) = 50) \/
  (status (fst (update dt a e)) = finished /\
   (ball_x (fst (update dt a e)) <= 0 \/ FIELD_WIDTH <= ball_x (fst (update dt a e)))).
Proof.
  unfold update.
  destruct (status e) eqn:Hs; simpl; try (intro H; exfalso; apply H; reflexivity).
  pose proof (update_paddles_same dt e) as (P0 & _).
  destruct (update_ball_cases dt a (update_paddles dt e) no_events)
    as (e4 & ev4 & (S0 & _) & Sev & ->).
  rewrite P0, Hs in S0.
  destruct (Rleb (ball_x e4) 0) eqn:Hx; simpl.
  - intros _. apply Rleb_iff in Hx.
    pose proof (handle_score_spec a (set_score_p2 (score_p2 e4 + 1)%Z e4))
      as (_ & _ & _ & _ & _ & Q).
    assert (Bx : ball_x (set_score_p2 (score_p2 e4 + 1)%Z e4) = ball_x e4)
      by (destruct e4; reflexivity).
    assert (Sx : status (set_score_p2 (score_p2 e4 + 1)%Z e4) = playing)
      by (destruct e4; simpl in *; exact S0).
    revert Q; case_ifs;
      first [ intros (Q1 & _ & Q3 & Q4 & _); left; rewrite Q1, Q3, Q4, Sx; repeat split
            | intros (Q1 & _ & Q3 & _); right; rewrite Q1, Q3, Bx;
              split; [reflexivity|left; exact Hx] ].
  - destruct (Rleb FIELD_WIDTH (ball_x e4)) eqn:Hx'; simpl.
    + intros _. apply Rleb_iff in Hx'.
      pose proof (handle_score_spec a (set_score_p1 (score_p1 e4 + 1)%Z e4))
        as (_ & _ & _ & _ & _ & Q).
      assert (Bx : ball_x (set_score_p1 (score_p1 e4 + 1)%Z e4) = ball_x e4)
        by (destruct e4; reflexivity).
      assert (Sx : status (set_score_p1 (score_p1 e4 + 1)%Z e4) = playing)
        by (destruct e4; simpl in *; exact S0).
      revert Q; case_ifs;
        first [ intros (Q1 & _ & Q3 & Q4 & _); left; rewrite Q1, Q3, Q4, Sx; repeat split
              | intros (Q1 & _ & Q3 & _); right; rewrite Q1, Q3, Bx;
                split; [reflexivity|right; exact Hx'] ].
    + rewrite Sev; intro H; exfalso; apply H; reflexivity.
Qed.

Lemma score_tick_ball_position_witness :
  score (snd (update (1/60) 0 (before_p1_point 1 0))) <> None /\
  ((status (fst (update (1/60) 0 (before_p1_point 1 0))) = playing /\
    ball_x (fst (update (1/60) 0 (before_p1_point 1 0))) = 50 /\
    ball_y (fst (update (1/60) 0 (before_p1_point 1 0))) = 50) \/
   (status (fst (update (1/60) 0 (before_p1_point 1 0))) = finished /\
    (ball_x (fst (update (1/60) 0 (before_p1_point 1 0))) <= 0 \/
     FIELD_WIDTH <= ball_x (fst (update (1/60) 0 (before_p1_point 1 0)))))).
Proof.
  assert (H : score (snd (update (1/60) 0 (before_p1_point 1 0))) <> None).
  { unfold before_p1_point; unfold_update; reval; discriminate. }
  split; [exact H|].
  apply (score_tick_ball_position (1/60) 0 (before_p1_point 1 0)); exact H.
Defined.

(** Claim C3 (code_bug): after a point that does not end the match, the
    serve goes to the player with the lower score, ties to player 2, not to
    the player who was scored on.  Player 1 scores from 0-2 (the serve goes
    left, to player 1), and player 2 scores from 1-0 (the serve goes right,
    to player 2). *)
Theorem serve_goes_to_trailing_player :
  let r1 := update (1/60) 0 (before_p1_point 0 2) in
  let r2 := update (1/60) 0 (before_p2_point 1 0) in
  score (snd r1) = Some 1%Z /\ status (fst r1) = playing /\
  ball_velocity_x (fst r1) < 0 /\
  score (snd r2) = Some 2%Z /\ status (fst r2) = playing /\
  score_p1 (fst r2) = 1%Z /\ score_p2 (fst r2) = 1%Z /\
  0 < ball_velocity_x (fst r2).
Proof.
  unfold before_p1_point, before_p2_point; unfold_update; reval.
  rewrite cos_0; unfold_consts.
  repeat split; try reflexivity; lra.
Qed.

Lemma py_min_Rmin a b : py_min a b = Rmin a b.
Proof.
  unfold py_min, Rmin, Rltb; destruct (Rlt_dec b a); destruct (Rle_dec a b); lra.
Qed.

(** Scaling a non-zero vector [(vx, vy)] by [m / |(vx, vy)|] gives it the
    magnitude [m]. *)
Lemma renormalize_magnitude vx vy m :
  0 < vx ^ 2 + vy ^ 2 -> 0 <= m ->
  sqrt ((vx / sqrt (vx ^ 2 + vy ^ 2) * m) ^ 2 + (vy / sqrt (vx ^ 2 + vy ^ 2) * m) ^ 2) = m.
Proof.
  intros Hp Hm.
  assert (Hc : sqrt (vx ^ 2 + vy ^ 2) ^ 2 = vx ^ 2 + vy ^ 2) by (apply pow2_sqrt; lra).
  assert (Hpos : 0 < sqrt (vx ^ 2 + vy ^ 2)) by (apply sqrt_lt_R0; lra).
  set (c := sqrt (vx ^ 2 + vy ^ 2)) in *.
  assert (E : (vx / c * m) ^ 2 + (vy / c * m) ^ 2 = m ^ 2 * ((vx ^ 2 + vy ^ 2) / c ^ 2))
    by (field; lra).
  rewrite E, <- Hc.
  replace (c ^ 2 / c ^ 2) with 1 by (field; lra).
  rewrite Rmult_1_r; apply sqrt_pow2; exact Hm.
Qed.

(** A collision found by [_check_paddle_collision] leaves the ball with
    speed [min(|v'| * SPEED_INCREASE_FACTOR, MAX_BALL_SPEED)], where [v'] is
    the velocity after the horizontal flip and the spin. *)
Lemma collision_speed n e ev :
  paddle_hit ev = false ->
  paddle_hit (snd (check_paddle_collision n e ev)) = true ->
  speed_of (fst (check_paddle_collision n e ev)) =
  Rmin (sqrt ((- ball_velocity_x e) ^ 2 +
              (ball_velocity_y e +
               (ball_y e - (if (n =? 1)%Z then p1_y e else p2_y e)) / (PADDLE_HEIGHT / 2)
               * 0.5) ^ 2) * SPEED_INCREASE_FACTOR) MAX_BALL_SPEED.
Proof.
  intros H0.
  destruct e as [rc pl st r1 r2 c1 c2 s1 s2 w y1 y2 d1 d2 bx byy vx vy sp].
  unfold check_paddle_collision.
  destruct (n =? 1)%Z; rcbn.
  all: destruct (Rltb _ 0) eqn:Hm || destruct (Rltb 0 _) eqn:Hm; rcbn;
       [| rewrite H0; discriminate].
  all: apply Rltb_iff in Hm.
  all: match goal with
       | |- context [if ?b then _ else _] =>
           destruct b eqn:Ho; rcbn; [| rewrite H0; discriminate]
       end.
  all: intros _; unfold speed_of.
  all: match goal with
       | |- context [Rltb 0 (sqrt ?x)] =>
           assert (Hp : 0 < x)
             by (apply Rplus_lt_le_0_compat; [|apply pow2_ge_0];
                 rewrite <- Rsqr_pow2; apply Rsqr_pos_lt; lra);
           rewrite (Rltb_true 0 (sqrt x)) by (apply sqrt_lt_R0; exact Hp); rcbn
       end.
  all: rewrite renormalize_magnitude; [apply py_min_Rmin| exact Hp |].
  all: rewrite py_min_Rmin; apply Rmin_glb;
       [apply Rmult_le_pos; [apply sqrt_pos|unfold_consts; lra] | unfold_consts; lra].
Qed.

(** Claim C5, as the code does it: when [_check_paddle_collision] finds a
    collision, the ball leaves with speed
    [min(|v'| * SPEED_INCREASE_FACTOR, MAX_BALL_SPEED)], where [v'] is the
    velocity after the horizontal flip and the spin
    [(ball_y - paddle_y) / (PADDLE_HEIGHT / 2) * 0.5] have been applied, not
    the velocity the ball had before the collision. *)
Theorem paddle_hit_speed (n : Z) (e : GameEngine) (ev : Events) :
  paddle_hit ev = false ->
  paddle_hit (snd (check_paddle_collision n e ev)) = true ->
  speed_of (fst (check_paddle_collision n e ev)) =
  Rmin (sqrt ((- ball_velocity_x e) ^ 2 +
              (ball_velocity_y e +
               (ball_y e - (if (n =? 1)%Z then p1_y e else p2_y e)) / (PADDLE_HEIGHT / 2)
               * 0.5) ^ 2) * SPEED_INCREASE_FACTOR) MAX_BALL_SPEED.
Proof. exact (collision_speed n e ev). Qed.

Lemma check_paddle_collision_hit_p1 e ev :
  ball_velocity_x e < 0 ->
  PADDLE_WIDTH - PADDLE_WIDTH / 2 <= ball_x e + BALL_SIZE / 2 ->
  ball_x e - BALL_SIZE / 2 <= PADDLE_WIDTH + PADDLE_WIDTH / 2 ->
  p1_y e - PADDLE_HEIGHT / 2 <= ball_y e + BALL_SIZE / 2 ->
  ball_y e - BALL_SIZE / 2 <= p1_y e + PADDLE_HEIGHT / 2 ->
  ball_x (fst (check_paddle_collision 1 e ev)) =
    PADDLE_WIDTH + PADDLE_WIDTH / 2 + BALL_SIZE / 2 + 0.1 /\
  paddle_hit (snd (check_paddle_collision 1 e ev)) = true.
Proof.
  intros Hv H1 H2 H3 H4; destruct e; simpl in *.
  unfold check_paddle_collision; rcbn.
  repeat match goal with
         | |- context [Rleb ?x ?y] => rewrite (Rleb_true x y) by assumption
         | |- context [Rltb ?x ?y] => rewrite (Rltb_true x y) by assumption
         end; rcbn.
  case_ifs; rcbn; split; reflexivity.
Qed.

Lemma check_paddle_collision_miss_p2 e ev :
  ball_x e + BALL_SIZE / 2 < FIELD_WIDTH - PADDLE_WIDTH - PADDLE_WIDTH / 2 ->
  check_paddle_collision 2 e ev = (e, ev).
Proof.
  intro H; destruct e; simpl in H.
  unfold check_paddle_collision; rcbn.
  destruct (Rltb 0 _); rcbn; [|reflexivity].
  match goal with
  | |- context [Rleb ?x ?y] => rewrite (Rleb_false x y) by lra
  end; rcbn; reflexivity.
Qed.

Lemma paddle_hit_speed_witness :
  paddle_hit no_events = false /\
  paddle_hit (snd (check_paddle_collision 1 before_p1_hit no_events)) = true /\
  speed_of (fst (check_paddle_collision 1 before_p1_hit no_events)) =
  Rmin (sqrt ((- ball_velocity_x before_p1_hit) ^ 2 +
              (ball_velocity_y before_p1_hit +
               (ball_y before_p1_hit -
                (if (1 =? 1)%Z then p1_y before_p1_hit else p2_y before_p1_hit))
               / (PADDLE_HEIGHT / 2) * 0.5) ^ 2) * SPEED_INCREASE_FACTOR) MAX_BALL_SPEED.
Proof.
  assert (Hh : paddle_hit (snd (check_paddle_collision 1 before_p1_hit no_events)) = true)
    by (apply check_paddle_collision_hit_p1; unfold before_p1_hit; simpl;
        unfold_consts; lra).
  split; [reflexivity|]. split; [exact Hh|].
  apply (paddle_hit_speed 1 before_p1_hit no_events); [reflexivity|exact Hh].
Defined.

(** Claim C5, refuted: the ball moving at speed 1 hits paddle 1 ten units
    below its centre; the spin raises its speed before the growth factor is
    applied, so after the tick its speed is [1.05 * sqrt 1.25], not
    [min(1 * 1.05, 3.0) = 1.05]. *)
Lemma paddle_hit_speed_not_from_previous :
  paddle_hit (snd (update (1/60) 0 before_p1_hit)) = true /\
  speed_of (fst (update (1/60) 0 before_p1_hit)) <>
    Rmin (speed_of before_p1_hit * SPEED_INCREASE_FACTOR) MAX_BALL_SPEED.
Proof.
  assert (Hprev : speed_of before_p1_hit = 1).
  { unfold speed_of, before_p1_hit; simpl.
    replace ((-1) * ((-1) * 1) + 0 * (0 * 1)) with 1 by lra; apply sqrt_1. }
  rewrite Hprev.
  unfold update, update_paddles, update_ball, before_p1_hit.
  repeat (cbn -[check_paddle_collision Rleb Rltb py_min py_max Rle_dec Rlt_dec Rplus
                Rminus Rmult Rdiv Ropp Rabs sqrt cos sin IZR pow Rinv
                FIELD_WIDTH FIELD_HEIGHT PADDLE_WIDTH PADDLE_HEIGHT BALL_SIZE
                PADDLE_SPEED INITIAL_BALL_SPEED SPEED_INCREASE_FACTOR MAX_BALL_SPEED];
          rstep).
  match goal with
  | |- context [check_paddle_collision 1 ?x ?ev] =>
      assert (Hv : paddle_hit ev = false) by reflexivity;
      destruct (check_paddle_collision_hit_p1 x ev) as [Hx Hh];
        try (simpl; unfold_consts; lra);
      pose proof (collision_speed 1 x ev Hv Hh) as Hs;
      destruct (check_paddle_collision 1 x ev) as [e3 ev3]
  end.
  simpl in Hx, Hh, Hs.
  rewrite check_paddle_collision_miss_p2 by (rewrite Hx; unfold_consts; lra).
  rewrite Hx; reval.
  split; [exact Hh|].
  rewrite Hs.
  match goal with
  | |- context [sqrt ?x] =>
      let y := fresh "y" in
      set (y := x); assert (Ey : y = 5 / 4) by (subst y; unfold_consts; lra);
      rewrite Ey
  end.
  assert (Hlo : 1 < sqrt (5 / 4)) by (rewrite <- sqrt_1; apply sqrt_lt_1; lra).
  assert (Hhi : sqrt (5 / 4) < 2)
    by (replace 2 with (sqrt 4) by (replace 4 with (2 * 2) by lra; apply sqrt_square; lra);
        apply sqrt_lt_1; lra).
  unfold_consts; unfold Rmin.
  destruct (Rle_dec (sqrt (5 / 4) * 1.05) 3.0); destruct (Rle_dec (1 * 1.05) 3.0); lra.
Qed.

End EngineProofs.

(* ================================================================== *)
(** ** Proofs about the consumer *)

Module ConsumerProofs.
Import Consumer.

Lemma sys0_inv : player_inv sys0.
Proof. intros c cs k H. simpl in H. rewrite lookup_empty in H. discriminate. Qed.

(** Replacing a room by one with the same slots and an engine. *)
Lemma set_room_inv s rc room room' :
  player_inv s -> ACTIVE_ROOMS s !! rc = Some room ->
  players room' = players room -> is_Some (engine room') ->
  player_inv (set_room rc room' s).
Proof.
  intros Hinv Hr Hp [e' He'] c cs k Hc Hk.
  destruct (Hinv c cs k Hc Hk) as [H12 (r & e & Hr' & Hpl & He)].
  split; [exact H12|]. simpl.
  destruct (decide (room_code cs = rc)) as [E|ne].
  - subst rc. rewrite lookup_insert_eq. rewrite Hr in Hr'. injection Hr' as <-.
    exists room', e'. rewrite Hp. auto.
  - rewrite lookup_insert_ne by congruence. eauto.
Qed.

(** Updating consumer [c] together with its room. *)
Lemma set_consumer_room_inv s c cs cs' room room' :
  player_inv s -> consumers s !! c = Some cs ->
  ACTIVE_ROOMS s !! room_code cs = Some room ->
  room_code cs' = room_code cs -> is_Some (engine room') ->
  (forall k c', players room !! k = Some c' -> players room' !! k = Some c') ->
  (forall k, player_num cs' = Some k -> (k = 1 \/ k = 2)%Z /\ players room' !! k = Some c) ->
  player_inv (set_consumer c cs' (set_room (room_code cs) room' s)).
Proof.
  intros Hinv Hc Hr Hrc [e' He'] Hkeep Hown c0 cs0 k Hc0 Hk. simpl in Hc0 |- *.
  destruct (decide (c0 = c)) as [->|ne].
  - rewrite lookup_insert_eq in Hc0. injection Hc0 as <-.
    destruct (Hown k Hk) as [H12 Hpl]. split; [exact H12|].
    rewrite Hrc, lookup_insert_eq. eauto.
  - rewrite lookup_insert_ne in Hc0 by congruence.
    destruct (Hinv c0 cs0 k Hc0 Hk) as [H12 (r & e & Hr' & Hpl & He)].
    split; [exact H12|].
    destruct (decide (room_code cs0 = room_code cs)) as [E|E].
    + rewrite E, lookup_insert_eq. rewrite E, Hr in Hr'. injection Hr' as <-.
      exists room', e'. split; [reflexivity|]. split; [apply Hkeep; exact Hpl|exact He'].
    + rewrite lookup_insert_ne by congruence. eauto.
Qed.

Lemma connect_inv s c rc :
  player_inv s -> consumers s !! c = None -> player_inv (connect c rc s).
Proof.
  intros Hinv Hfresh c0 cs0 k Hc0 Hk. unfold connect in *.
  assert (Hc0' : consumers s !! c0 = Some cs0 /\ c0 <> c).
  { destruct (ACTIVE_ROOMS (set_consumer c (mkConsumer rc None None) s) !! rc);
      simpl in Hc0; destruct (decide (c0 = c)) as [->|ne];
      try (rewrite lookup_insert_eq in Hc0; injection Hc0 as <-; simpl in Hk; discriminate);
      rewrite lookup_insert_ne in Hc0 by congruence; auto. }
  destruct Hc0' as [Hc0' ne].
  destruct (Hinv c0 cs0 k Hc0' Hk) as [H12 (r & e & Hr' & Hpl & He)].
  split; [exact H12|].
  simpl. destruct (ACTIVE_ROOMS s !! rc) eqn:Hrc; simpl; [eauto|].
  rewrite lookup_insert_ne by congruence. eauto.
Qed.

Lemma delete_consumer_inv s c :
  player_inv s -> player_inv (mkSys (ACTIVE_ROOMS s) (delete c (consumers s))).
Proof.
  intros Hinv c0 cs0 k Hc0 Hk. simpl in Hc0.
  destruct (decide (c0 = c)) as [->|ne].
  - rewrite lookup_delete_eq in Hc0. discriminate.
  - rewrite lookup_delete_ne in Hc0 by congruence. exact (Hinv c0 cs0 k Hc0 Hk).
Qed.

(** The clean-up keeps the engine and the slots of the other players. *)
Lemma leave_room_keep s c cs room c0 cs0 k0 :
  player_inv s -> consumers s !! c = Some cs ->
  ACTIVE_ROOMS s !! room_code cs = Some room ->
  c0 <> c -> consumers s !! c0 = Some cs0 -> player_num cs0 = Some k0 ->
  room_code cs0 = room_code cs ->
  engine (fst (leave_room c cs room)) = engine room /\
  players (fst (leave_room c cs room)) !! k0 = Some c0.
Proof.
  intros Hinv Hc Hr ne Hc0 Hk0 Hrc.
  destruct (Hinv c0 cs0 k0 Hc0 Hk0) as [_ (r & e & Hr' & Hpl & _)].
  rewrite Hrc, Hr in Hr'. injection Hr' as <-.
  unfold leave_room.
  destruct (role cs) as [[|]|]; destruct (player_num cs) as [k|] eqn:Hk; simpl; auto.
  destruct (k =? 0)%Z; simpl; auto.
  split; [reflexivity|].
  destruct (Hinv c cs k Hc Hk) as [_ (r & e' & Hr' & Hpl' & _)].
  rewrite Hr in Hr'. injection Hr' as <-.
  rewrite lookup_delete_ne; [exact Hpl|].
  intros ->. rewrite Hpl in Hpl'. injection Hpl'. congruence.
Qed.

Lemma disconnect_inv s c : player_inv s -> player_inv (fst (disconnect c s)).
Proof.
  intros Hinv. unfold disconnect.
  destruct (consumers s !! c) as [cs|] eqn:Hc; [|exact Hinv].
  cbn [ACTIVE_ROOMS consumers].
  pose proof (delete_consumer_inv s c Hinv) as Hinv1.
  destruct (ACTIVE_ROOMS s !! room_code cs) as [room|] eqn:Hr; [|exact Hinv1].
  assert (Hkeep : forall c0 cs0 k0,
    delete c (consumers s) !! c0 = Some cs0 -> player_num cs0 = Some k0 ->
    room_code cs0 = room_code cs ->
    engine (fst (leave_room c cs room)) = engine room /\
    players (fst (leave_room c cs room)) !! k0 = Some c0).
  { intros c0 cs0 k0 Hc0 Hk0 Hrc.
    destruct (decide (c0 = c)) as [->|ne];
      [rewrite lookup_delete_eq in Hc0; discriminate|].
    rewrite lookup_delete_ne in Hc0 by congruence.
    exact (leave_room_keep s c cs room c0 cs0 k0 Hinv Hc Hr ne Hc0 Hk0 Hrc). }
  destruct (leave_room c cs room) as [room1 outs]. simpl in Hkeep.
  destruct (bool_decide (players room1 = ∅) && bool_decide (observers room1 = []))
    eqn:Hb; simpl.
  - apply andb_prop in Hb as [Hb _]. apply bool_decide_eq_true in Hb.
    intros c0 cs0 k Hc0 Hk.
    destruct (Hinv1 c0 cs0 k Hc0 Hk) as [H12 (r & e & Hr' & Hpl & He)].
    split; [exact H12|]. simpl in Hr'.
    destruct (decide (room_code cs0 = room_code cs)) as [E|E].
    + destruct (Hkeep c0 cs0 k Hc0 Hk E) as [_ Hp]. rewrite Hb in Hp.
      rewrite lookup_empty in Hp. discriminate.
    + simpl. rewrite lookup_delete_ne by congruence. eauto.
  - intros c0 cs0 k Hc0 Hk.
    destruct (Hinv1 c0 cs0 k Hc0 Hk) as [H12 (r & e & Hr' & Hpl & He)].
    split; [exact H12|]. simpl in Hr' |- *.
    destruct (decide (room_code cs0 = room_code cs)) as [E|E].
    + destruct (Hkeep c0 cs0 k Hc0 Hk E) as [Heng Hp].
      rewrite E, lookup_insert_eq. rewrite E, Hr in Hr'. injection Hr' as <-.
      exists room1, e. rewrite Heng. auto.
    + rewrite lookup_insert_ne by congruence. eauto.
Qed.

(** Reduction of the record projections and updates of the model. *)
Ltac proj_simpl :=
  cbn [engine task players observers room_code role player_num ACTIVE_ROOMS consumers
       with_engine with_task with_players with_observers set_role set_player_num
       set_room set_consumer] in *.

Lemma create_room_inv s c cs data :
  player_inv s ->
  match handle_create_room c cs data s with
  | Done s' _ | Raised s' _ _ => player_inv s'
  | OutOfModel => True
  end.
Proof.
  intros Hinv. unfold handle_create_room.
  destruct (ACTIVE_ROOMS s !! room_code cs) as [room|] eqn:Hr; [|exact Hinv].
  destruct (engine room); [exact Hinv|].
  destruct (get_or "points_limit" (JNum 5) data); try exact I.
  apply set_room_inv with room; [exact Hinv|exact Hr|reflexivity|eexists; reflexivity].
Qed.

Lemma join_game_inv s c cs data :
  player_inv s -> consumers s !! c = Some cs ->
  match handle_join_game c cs data s with
  | Done s' _ | Raised s' _ _ => player_inv s'
  | OutOfModel => True
  end.
Proof.
  intros Hinv Hc. unfold handle_join_game. cbv beta zeta.
  destruct (ACTIVE_ROOMS s !! room_code cs) as [room|] eqn:Hr; [|exact Hinv].
  assert (Hown0 : forall k, player_num cs = Some k ->
                  (k = 1 \/ k = 2)%Z /\ players room !! k = Some c).
  { intros k Hk. destruct (Hinv c cs k Hc Hk) as [H12 (r & e & Hr' & Hpl & _)].
    rewrite Hr in Hr'. injection Hr' as <-. auto. }
  destruct (json_eq_str (get_or "role" (JStr "player") data) "player");
  [destruct (players room !! 1%Z) eqn:P1; [destruct (players room !! 2%Z) eqn:P2|]|];
  [| | | destruct (json_eq_str (get_or "role" (JStr "player") data) "observer")];
  (apply set_consumer_room_inv with (room := room);
     [exact Hinv|exact Hc|exact Hr|reflexivity|proj_simpl; eexists; reflexivity| |]);
  proj_simpl.
  all: try (intros k c' Hk;
            first [exact Hk | rewrite lookup_insert_ne; [exact Hk | intros E; subst k; congruence]]).
  all: intros k Hk;
       first [exact (Hown0 k Hk) | injection Hk as <-; split; [lia | apply lookup_insert_eq]].
Qed.

Lemma player_ready_inv s c cs choice angle :
  player_inv s ->
  match handle_player_ready c cs choice angle s with
  | Done s' _ | Raised s' _ _ => player_inv s'
  | OutOfModel => True
  end.
Proof.
  intros Hinv. unfold handle_player_ready. cbv beta zeta.
  destruct (negb _); [exact Hinv|].
  destruct (ACTIVE_ROOMS s !! room_code cs) as [room|] eqn:Hr; [|exact Hinv].
  destruct (engine room); [|exact Hinv].
  match goal with |- context [if ?b then with_task true _ else _] => destruct b end;
  (apply set_room_inv with room; [exact Hinv|exact Hr|reflexivity|eexists; reflexivity]).
Qed.

Lemma move_paddle_inv s c cs data :
  player_inv s ->
  match handle_move_paddle c cs data s with
  | Done s' _ | Raised s' _ _ => player_inv s'
  | OutOfModel => True
  end.
Proof.
  intros Hinv. unfold handle_move_paddle. cbv beta zeta.
  destruct (negb _); [exact Hinv|].
  destruct (ACTIVE_ROOMS s !! room_code cs) as [room|] eqn:Hr; [|exact Hinv].
  destruct (engine room); [|exact Hinv].
  destruct (negb _); [exact Hinv|].
  destruct (get_or "direction" (JStr "stop") data); try exact Hinv.
  match goal with |- context [if ?b then Done (set_room _ _ _) _ else _] => destruct b end;
  [|exact Hinv].
  apply set_room_inv with room; [exact Hinv|exact Hr|reflexivity|eexists; reflexivity].
Qed.

Lemma receive_inv s c m choice angle s' outs :
  player_inv s -> receive c m choice angle s = Some (s', outs) -> player_inv s'.
Proof.
  intros Hinv H. unfold receive in H.
  destruct (consumers s !! c) as [cs|] eqn:Hc; [|discriminate].
  destruct m as [|ty|data]; [injection H as <- _; exact Hinv|injection H as <- _; exact Hinv|].
  cbv beta zeta in H.
  pose proof (create_room_inv s c cs data Hinv) as H1.
  pose proof (join_game_inv s c cs data Hinv Hc) as H2.
  pose proof (player_ready_inv s c cs choice angle Hinv) as H3.
  pose proof (move_paddle_inv s c cs data Hinv) as H4.
  repeat match goal with
  | H : context [if ?b then _ else _] |- _ => destruct b
  end;
  [ destruct (handle_create_room c cs data s)
  | destruct (handle_join_game c cs data s)
  | destruct (handle_player_ready c cs choice angle s)
  | destruct (handle_move_paddle c cs data s)
  | ]; try discriminate; injection H as <- _; assumption.
Qed.

Lemma tick_inv s rc dt angle s' outs :
  player_inv s -> tick rc dt angle s = Some (s', outs) -> player_inv s'.
Proof.
  intros Hinv H. unfold tick in H.
  destruct (ACTIVE_ROOMS s !! rc) as [room|] eqn:Hr; [|discriminate].
  destruct (engine room) eqn:He; [|discriminate].
  destruct (negb (task room)); [discriminate|].
  destruct (Engine.status_eqb _ _); injection H as <- _;
  (apply set_room_inv with room;
     [exact Hinv|exact Hr|reflexivity|proj_simpl; rewrite ?He; eexists; reflexivity]).
Qed.

Lemma run_sys_inv evs s s' :
  player_inv s -> run_sys evs s = Some s' -> player_inv s'.
Proof.
  revert s. induction evs as [|ev evs IH]; intros s Hinv H; simpl in H.
  - injection H as <-. exact Hinv.
  - destruct (sys_step ev s) as [[s1 o]|] eqn:Hst; [|discriminate].
    apply (IH s1); [|exact H].
    destruct ev as [c rc|c|c m ch a|rc dt a]; simpl in Hst.
    + destruct (consumers s !! c) eqn:Hc; [discriminate|].
      injection Hst as <- _. apply connect_inv; assumption.
    + destruct (consumers s !! c); [|discriminate].
      injection Hst as Hst. change s1 with (fst (s1, o)). rewrite <- Hst.
      apply disconnect_inv; exact Hinv.
    + exact (receive_inv s c m ch a s1 o Hinv Hst).
    + exact (tick_inv s rc dt a s1 o Hinv Hst).
Qed.

Lemma reachable_inv s : reachable s -> player_inv s.
Proof. intros [evs H]. exact (run_sys_inv evs sys0 s sys0_inv H). Qed.

(** Evaluates the comparisons of string literals in the goal. *)
Ltac eval_str_eqs :=
  cbn [opt_json_eq_str json_eq_str];
  repeat match goal with
  | |- context [String.eqb ?a ?b] =>
      let v := eval vm_compute in (String.eqb a b) in
      lazymatch v with
      | true => change (String.eqb a b) with true
      | false => change (String.eqb a b) with false
      end
  end;
  cbv beta iota.

(** Claim C8: from every reachable state of the server, a [move_paddle]
    message whose direction is not one of up, down, stop changes nothing
    and sends nothing; a valid direction sent by a player of a room whose
    game is playing is stored as that player's paddle direction. *)
Theorem move_paddle_input_handling (s : Sys) (c : channel) (cs : Consumer)
    (data : list (string * Json)) (choice : Z) (angle : R) :
  reachable s -> consumers s !! c = Some cs ->
  assoc_last "type" data = Some (JStr "move_paddle") ->
  (valid_direction (get_or "direction" (JStr "stop") data) = false ->
   receive c (Payload data) choice angle s = Some (s, [])) /\
  (forall k room e d,
     role cs = Some RolePlayer -> player_num cs = Some k ->
     ACTIVE_ROOMS s !! room_code cs = Some room -> engine room = Some e ->
     Engine.status e = Engine.playing ->
     get_or "direction" (JStr "stop") data = JStr d ->
     valid_direction (JStr d) = true ->
     receive c (Payload data) choice angle s =
       Some (set_room (room_code cs)
               (with_engine (Some (Engine.set_paddle_direction k d e)) room) s, []) /\
     paddle_direction k (Engine.set_paddle_direction k d e) = d).
Proof.
  intros Hreach Hc Ht. pose proof (reachable_inv s Hreach) as Hinv.
  unfold receive. rewrite Hc. cbv beta zeta iota. rewrite Ht. eval_str_eqs.
  unfold handle_move_paddle. cbv beta zeta.
  split.
  - intros Hbad.
    destruct (is_player (role cs) && truthy_num (player_num cs)) eqn:Hp;
      cbn [negb]; [|reflexivity].
    apply andb_prop in Hp as [_ Hp].
    destruct (player_num cs) as [k|] eqn:Hk; [|discriminate].
    destruct (Hinv c cs k Hc Hk) as [_ (room & e & Hr & _ & He)].
    rewrite Hr, He.
    destruct (negb (Engine.status_eqb (Engine.status e) Engine.playing)); [reflexivity|].
    destruct (get_or "direction" (JStr "stop") data) as [| | |d| |]; try reflexivity.
    cbn [valid_direction] in Hbad. rewrite Hbad. reflexivity.
  - intros k room e d Hrole Hk Hr He Hst Hd Hv.
    destruct (Hinv c cs k Hc Hk) as [H12 _].
    assert (Hk0 : (k =? 0)%Z = false) by (destruct H12 as [->| ->]; reflexivity).
    rewrite Hrole, Hk. cbn [is_player truthy_num andb negb]. rewrite Hk0.
    cbn [negb]. rewrite Hr, He, Hst. cbn [Engine.status_eqb negb].
    rewrite Hd. cbn [valid_direction] in Hv. rewrite Hv.
    split; [reflexivity|].
    destruct e. destruct H12 as [->| ->]; reflexivity.
Qed.

Lemma move_paddle_input_handling_witness :
  reachable demo_sys /\
  consumers demo_sys !! 1 = Some (mkConsumer "ABC123" (Some RolePlayer) (Some 1%Z)) /\
  assoc_last "type" [("type", JStr "move_paddle"); ("direction", JStr "left")]
    = Some (JStr "move_paddle") /\
  receive 1 (Payload [("type", JStr "move_paddle"); ("direction", JStr "left")]) 1 0
    demo_sys = Some (demo_sys, []).
Proof.
  assert (Hreach : reachable demo_sys).
  { exists demo_events. unfold demo_sys.
    destruct (run_sys demo_events sys0) eqn:E; [reflexivity|].
    vm_compute in E. discriminate. }
  assert (Hc : consumers demo_sys !! 1 =
               Some (mkConsumer "ABC123" (Some RolePlayer) (Some 1%Z)))
    by (vm_compute; reflexivity).
  split; [exact Hreach|]. split; [exact Hc|]. split; [reflexivity|].
  destruct (move_paddle_input_handling demo_sys 1 _
              [("type", JStr "move_paddle"); ("direction", JStr "left")] 1 0
              Hreach Hc eq_refl) as [T _].
  apply T. reflexivity.
Defined.

(** Claim C9: a [join_game] request for the role player gets slot 1 when it
    is free, else slot 2 when it is free, and is acknowledged as a player;
    when both slots are taken the connection becomes an observer and is
    acknowledged as an observer only. *)
Theorem join_game_player_slots (s : Sys) (c : channel) (cs : Consumer) (room : Room)
    (data : list (string * Json)) (choice : Z) (angle : R) :
  consumers s !! c = Some cs ->
  ACTIVE_ROOMS s !! room_code cs = Some room ->
  assoc_last "type" data = Some (JStr "join_game") ->
  get_or "role" (JStr "player") data = JStr "player" ->
  match players room !! 1%Z, players room !! 2%Z with
  | Some _, Some _ =>
      exists s' st room',
        receive c (Payload data) choice angle s =
          Some (s', [ToSelf c (MJoinedAsObserver (room_code cs));
                     ToGroup (room_code cs) (MStatusChange st)]) /\
        consumers s' !! c = Some (set_role (Some RoleObserver) cs) /\
        ACTIVE_ROOMS s' !! room_code cs = Some room' /\
        players room' = players room /\ observers room' = observers room ++ [c]
  | None, _ =>
      exists s' st room',
        receive c (Payload data) choice angle s =
          Some (s', [ToSelf c (MJoinedAsPlayer (Some 1%Z) (room_code cs));
                     ToGroup (room_code cs) (MStatusChange st)]) /\
        consumers s' !! c = Some (mkConsumer (room_code cs) (Some RolePlayer) (Some 1%Z)) /\
        ACTIVE_ROOMS s' !! room_code cs = Some room' /\
        players room' = <[1%Z := c]> (players room)
  | Some _, None =>
      exists s' st room',
        receive c (Payload data) choice angle s =
          Some (s', [ToSelf c (MJoinedAsPlayer (Some 2%Z) (room_code cs));
                     ToGroup (room_code cs) (MStatusChange st)]) /\
        consumers s' !! c = Some (mkConsumer (room_code cs) (Some RolePlayer) (Some 2%Z)) /\
        ACTIVE_ROOMS s' !! room_code cs = Some room' /\
        players room' = <[2%Z := c]> (players room)
  end.
Proof.
  intros Hc Hr Ht Hrole.
  unfold receive. rewrite Hc. cbv beta zeta iota. rewrite Ht. eval_str_eqs.
  unfold handle_join_game. cbv beta zeta. rewrite Hr, Hrole. eval_str_eqs.
  destruct (players room !! 1%Z) eqn:P1; [destruct (players room !! 2%Z) eqn:P2|];
    cbv beta iota; (eexists; eexists; eexists; split; [reflexivity|]);
    cbn [set_consumer set_room consumers ACTIVE_ROOMS];
    rewrite !lookup_insert_eq; (split; [reflexivity|]); (split; [reflexivity|]);
    reflexivity || (split; reflexivity).
Qed.

Lemma join_game_player_slots_witness :
  exists room,
    consumers demo_sys3 !! 3 = Some (mkConsumer "ABC123" None None) /\
    ACTIVE_ROOMS demo_sys3 !! "ABC123" = Some room /\
    players room !! 1%Z = Some (1 : channel) /\ players room !! 2%Z = Some (2 : channel) /\
    exists s' st room',
      receive 3 (Payload [("type", JStr "join_game"); ("role", JStr "player")]) 1 0
        demo_sys3 =
        Some (s', [ToSelf 3 (MJoinedAsObserver "ABC123");
                   ToGroup "ABC123" (MStatusChange st)]) /\
      consumers s' !! 3 = Some (mkConsumer "ABC123" (Some RoleObserver) None) /\
      ACTIVE_ROOMS s' !! "ABC123" = Some room' /\
      players room' = players room /\ observers room' = observers room ++ [3].
Proof.
  assert (Hc : consumers demo_sys3 !! 3 = Some (mkConsumer "ABC123" None None))
    by (vm_compute; reflexivity).
  destruct (ACTIVE_ROOMS demo_sys3 !! "ABC123") as [room|] eqn:Hr;
    [|vm_compute in Hr; discriminate].
  assert (P1 : players room !! 1%Z = Some (1 : channel))
    by (vm_compute in Hr; injection Hr as <-; vm_compute; reflexivity).
  assert (P2 : players room !! 2%Z = Some (2 : channel))
    by (vm_compute in Hr; injection Hr as <-; vm_compute; reflexivity).
  pose proof (join_game_player_slots demo_sys3 3 _ room
                [("type", JStr "join_game"); ("role", JStr "player")] 1 0
                Hc Hr eq_refl eq_refl) as T.
  rewrite P1, P2 in T. unfold set_role in T. cbn [room_code player_num] in T.
  exists room. split; [exact Hc|]. split; [reflexivity|].
  split; [exact P1|]. split; [exact P2|]. exact T.
Defined.
End ConsumerProofs.

Module EngineFacts.
Import Engine EngineProofs.
Local Open Scope R_scope.

Ltac rcbn_in H :=
  cbn -[Rleb Rltb py_min py_max Rle_dec Rlt_dec Rplus Rminus Rmult Rdiv Ropp
        Rabs sqrt cos sin IZR pow Rinv
        FIELD_WIDTH FIELD_HEIGHT PADDLE_WIDTH PADDLE_HEIGHT BALL_SIZE
        PADDLE_SPEED INITIAL_BALL_SPEED SPEED_INCREASE_FACTOR MAX_BALL_SPEED] in H.

Lemma Rleb_false_lt a b : Rleb a b = false -> b < a.
Proof. unfold Rleb; destruct (Rle_dec a b); [discriminate|intros _; lra]. Qed.

Lemma py_max_Rmax a b : py_max a b = Rmax a b.
Proof.
  unfold py_max, Rmax, Rltb; destruct (Rlt_dec a b); destruct (Rle_dec a b); lra.
Qed.

(** What a paddle check keeps: the ball's height, the settings, the score
    and game-over entries of the events. *)
Lemma check_paddle_collision_keeps n e ev :
  let r := check_paddle_collision n e ev in
  ball_y (fst r) = ball_y e /\ settings (fst r) = settings e /\
  score (snd r) = score ev /\ game_over (snd r) = game_over ev.
Proof.
  destruct e; unfold check_paddle_collision.
  destruct (n =? 1)%Z; simpl; case_ifs; simpl; repeat split; reflexivity.
Qed.

Lemma handle_score_keeps a e :
  settings (handle_score a e) = settings e /\
  (ball_y (handle_score a e) = ball_y e \/ ball_y (handle_score a e) = 50).
Proof.
  destruct e; unfold handle_score, reset_ball; simpl; case_ifs; simpl;
    (split; [reflexivity|]); (left; reflexivity) || (right; reflexivity).
Qed.

Lemma update_paddles_settings dt e : settings (update_paddles dt e) = settings e.
Proof. destruct e; unfold update_paddles; simpl; case_ifs; reflexivity. Qed.

(** The wall stage of [_update_ball] leaves the ball between the walls. *)
Lemma update_ball_stages dt a e ev :
  exists e2 ev2,
    1 <= ball_y e2 <= 99 /\ settings e2 = settings e /\ game_over ev2 = game_over ev /\
    update_ball dt a e ev =
      (let '(e3, ev3) := check_paddle_collision 1 e2 ev2 in
       let '(e4, ev4) := check_paddle_collision 2 e3 ev3 in
       if Rleb (ball_x e4) 0 then
         (handle_score a (set_score_p2 (score_p2 e4 + 1)%Z e4), set_score 2 ev4)
       else if Rleb FIELD_WIDTH (ball_x e4) then
         (handle_score a (set_score_p1 (score_p1 e4 + 1)%Z e4), set_score 1 ev4)
       else (e4, ev4)).
Proof.
  unfold update_ball.
  match goal with
  | |- context [let '(_, _) := ?w in _] =>
      assert (Hw : 1 <= ball_y (fst w) <= 99 /\ settings (fst w) = settings e /\
                   game_over (snd w) = game_over ev)
  end.
  { destruct e; simpl.
    destruct (Rleb _ 0) eqn:H1; simpl.
    - unfold_consts; repeat split; lra.
    - apply Rleb_false_lt in H1.
      destruct (Rleb _ _) eqn:H2; simpl.
      + unfold_consts; repeat split; lra.
      + apply Rleb_false_lt in H2. revert H1 H2; unfold_consts; intros; repeat split; lra. }
  match goal with
  | |- context [let '(_, _) := ?w in _] => destruct w as [e2 ev2]
  end.
  cbn [fst snd] in Hw. destruct Hw as (B & S & G). exists e2, ev2. split; [exact B|]. split; [exact S|]. split; [exact G|reflexivity].
Qed.

(** Extra: a paddle hit sends the ball back towards the other side, just in
    front of the paddle, at a positive speed of at most [MAX_BALL_SPEED]. *)
Theorem paddle_hit_sends_ball_back (n : Z) (e : GameEngine) (ev : Events) :
  paddle_hit ev = false -> paddle_hit (snd (check_paddle_collision n e ev)) = true ->
  let e' := fst (check_paddle_collision n e ev) in
  (if (n =? 1)%Z then 0 < ball_velocity_x e' /\ ball_x e' = 4.1
   else ball_velocity_x e' < 0 /\ ball_x e' = 95.9) /\
  0 < speed_of e' <= MAX_BALL_SPEED.
Proof.
  intros H0 H1.
  pose proof (collision_speed n e ev H0 H1) as Hs.
  revert H1 Hs.
  destruct e as [rc pl st r1 r2 c1 c2 s1 s2 w y1 y2 d1 d2 bx byy vx vy sp].
  unfold check_paddle_collision.
  destruct (n =? 1)%Z; rcbn.
  all: destruct (Rltb _ 0) eqn:Hm || destruct (Rltb 0 _) eqn:Hm; rcbn;
       [| rewrite H0; discriminate].
  all: apply Rltb_iff in Hm.
  all: match goal with
       | |- context [if ?b then _ else _] =>
           destruct b eqn:Ho; rcbn; [| rewrite H0; discriminate]
       end.
  all: intros _ Hs; rcbn_in Hs.
  all: match goal with
       | |- context [Rltb 0 (sqrt ?x)] =>
           assert (Hp : 0 < x)
             by (apply Rplus_lt_le_0_compat; [|apply pow2_ge_0];
                 rewrite <- Rsqr_pow2; apply Rsqr_pos_lt; lra);
           assert (Hc : 0 < sqrt x) by (apply sqrt_lt_R0; exact Hp);
           rewrite (Rltb_true 0 (sqrt x)) in * by exact Hc; rcbn_in Hs; rcbn
       end.
  all: rewrite Hs; clear Hs.
  all: rewrite py_min_Rmin.
  all: match goal with |- context [Rmin (?c * SPEED_INCREASE_FACTOR) MAX_BALL_SPEED] =>
         assert (Hm' : 0 < Rmin (c * SPEED_INCREASE_FACTOR) MAX_BALL_SPEED)
           by (apply Rmin_glb_lt; [apply Rmult_lt_0_compat; [exact Hc|unfold_consts; lra]
                                  |unfold_consts; lra]);
         assert (Hle : Rmin (c * SPEED_INCREASE_FACTOR) MAX_BALL_SPEED <= MAX_BALL_SPEED)
           by apply Rmin_r;
         set (m := Rmin (c * SPEED_INCREASE_FACTOR) MAX_BALL_SPEED) in *;
         set (cs := c) in *
       end.
  all: split; [|split; [exact Hm'|exact Hle]].
  all: split; [|unfold_consts; lra].
  all: unfold Rdiv.
  - apply Rmult_lt_0_compat; [|exact Hm'].
    apply Rmult_lt_0_compat; [lra|apply Rinv_0_lt_compat; exact Hc].
  - assert (0 < vx * / cs * m)
      by (apply Rmult_lt_0_compat; [|exact Hm'];
          apply Rmult_lt_0_compat; [lra|apply Rinv_0_lt_compat; exact Hc]).
    lra.
Qed.

Lemma update_score_cases dt a e :
  let r := update dt a e in
  match score (snd r) with
  | None => score_p1 (fst r) = score_p1 e /\ score_p2 (fst r) = score_p2 e
  | Some p =>
      (p = 1%Z /\ score_p1 (fst r) = (score_p1 e + 1)%Z /\ score_p2 (fst r) = score_p2 e) \/
      (p = 2%Z /\ score_p1 (fst r) = score_p1 e /\ score_p2 (fst r) = (score_p2 e + 1)%Z)
  end.
Proof.
  unfold update.
  destruct (negb (status_eqb (status e) playing)); [simpl; split; reflexivity|].
  destruct (update_paddles_same dt e) as (_ & P1 & P2 & _).
  destruct (update_ball_cases dt a (update_paddles dt e) no_events)
    as (e4 & ev4 & (_ & S1 & S2 & _) & Sc & ->).
  destruct (Rleb (ball_x e4) 0); [|destruct (Rleb FIELD_WIDTH (ball_x e4))]; simpl.
  - destruct (handle_score_spec a (set_score_p2 (score_p2 e4 + 1)%Z e4)) as (H1 & H2 & _).
    right. rewrite H1, H2. destruct e4; cbn [set_score_p1 set_score_p2 score_p1 score_p2] in *.
    split; [reflexivity|]. split; congruence.
  - destruct (handle_score_spec a (set_score_p1 (score_p1 e4 + 1)%Z e4)) as (H1 & H2 & _).
    left. rewrite H1, H2. destruct e4; cbn [set_score_p1 set_score_p2 score_p1 score_p2] in *.
    split; [reflexivity|]. split; congruence.
  - rewrite Sc. simpl. split; congruence.
Qed.

Lemma update_settings dt a e : settings (fst (update dt a e)) = settings e.
Proof.
  unfold update.
  destruct (negb (status_eqb (status e) playing)); [reflexivity|].
  destruct (update_ball_stages dt a (update_paddles dt e) no_events)
    as (e2 & ev2 & _ & S & _ & ->).
  rewrite update_paddles_settings in S.
  pose proof (check_paddle_collision_keeps 1 e2 ev2) as K3.
  destruct (check_paddle_collision 1 e2 ev2) as [e3 ev3]; simpl in K3.
  pose proof (check_paddle_collision_keeps 2 e3 ev3) as K4.
  destruct (check_paddle_collision 2 e3 ev3) as [e4 ev4]; simpl in K4.
  destruct K3 as (_ & S3 & _), K4 as (_ & S4 & _).
  destruct (Rleb (ball_x e4) 0); [|destruct (Rleb FIELD_WIDTH (ball_x e4))]; simpl.
  - destruct (handle_score_keeps a (set_score_p2 (score_p2 e4 + 1)%Z e4)) as (H & _).
    rewrite H. transitivity (settings e4); [destruct e4; reflexivity|congruence].
  - destruct (handle_score_keeps a (set_score_p1 (score_p1 e4 + 1)%Z e4)) as (H & _).
    rewrite H. transitivity (settings e4); [destruct e4; reflexivity|congruence].
  - congruence.
Qed.


(** Extra: [player_ready(n)] sets the ready flag of player [n] (none for
    another [n]); the match starts, with the ball served from the centre,
    exactly when both flags are then set and the status was
    [waiting_for_ready]; otherwise the status and the ball are kept. The
    scores never change. *)
Theorem player_ready_marks_and_starts (n choice : Z) (angle : R) (e : GameEngine) :
  let e' := player_ready n choice angle e in
  player1_ready e' = (player1_ready e || (n =? 1)%Z)%bool /\
  player2_ready e' = (player2_ready e || (n =? 2)%Z)%bool /\
  score_p1 e' = score_p1 e /\ score_p2 e' = score_p2 e /\
  if (player1_ready e' && player2_ready e' && status_eqb (status e) waiting_for_ready)%bool
  then status e' = playing /\ ball_x e' = 50 /\ ball_y e' = 50 /\
       ball_speed e' = INITIAL_BALL_SPEED
  else status e' = status e /\ ball_x e' = ball_x e /\ ball_y e' = ball_y e /\
       ball_velocity_x e' = ball_velocity_x e /\ ball_velocity_y e' = ball_velocity_y e.
Proof.
  destruct e as [rc pl st r1 r2 c1 c2 s1 s2 w y1 y2 d1 d2 bx byy vx vy sp].
  unfold player_ready, start_game, reset_ball.
  destruct (Z.eqb_spec n 1); [subst n|destruct (Z.eqb_spec n 2); [subst n|]]; simpl.
  all: destruct r1, r2, st; simpl; repeat split; reflexivity.
Qed.

(** Extra: [update] never sets the [game_over] entry of the events it
    returns. *)
Theorem update_never_game_over (dt a : R) (e : GameEngine) :
  game_over (snd (update dt a e)) = false.
Proof.
  unfold update.
  destruct (negb (status_eqb (status e) playing)); [reflexivity|].
  destruct (update_ball_stages dt a (update_paddles dt e) no_events)
    as (e2 & ev2 & _ & _ & G & ->).
  pose proof (check_paddle_collision_keeps 1 e2 ev2) as K3.
  destruct (check_paddle_collision 1 e2 ev2) as [e3 ev3]; simpl in K3.
  pose proof (check_paddle_collision_keeps 2 e3 ev3) as K4.
  destruct (check_paddle_collision 2 e3 ev3) as [e4 ev4]; simpl in K4.
  destruct K3 as (_ & _ & _ & G3), K4 as (_ & _ & _ & G4).
  destruct (Rleb (ball_x e4) 0); [|destruct (Rleb FIELD_WIDTH (ball_x e4))]; simpl;
    rewrite G4, G3, G; reflexivity.
Qed.

(** Extra: after a tick of a match being played, the centre of the ball is
    between the walls: [1 <= ball_y <= 99]. *)
Theorem update_ball_between_walls (dt a : R) (e : GameEngine) :
  status e = playing ->
  1 <= ball_y (fst (update dt a e)) <= 99.
Proof.
  intros Hs. unfold update. rewrite Hs. simpl.
  destruct (update_ball_stages dt a (update_paddles dt e) no_events)
    as (e2 & ev2 & B & _ & _ & ->).
  pose proof (check_paddle_collision_keeps 1 e2 ev2) as K3.
  destruct (check_paddle_collision 1 e2 ev2) as [e3 ev3]; simpl in K3.
  pose proof (check_paddle_collision_keeps 2 e3 ev3) as K4.
  destruct (check_paddle_collision 2 e3 ev3) as [e4 ev4]; simpl in K4.
  destruct K3 as (Y3 & _), K4 as (Y4 & _).
  destruct (Rleb (ball_x e4) 0); [|destruct (Rleb FIELD_WIDTH (ball_x e4))]; simpl.
  - destruct (handle_score_keeps a (set_score_p2 (score_p2 e4 + 1)%Z e4)) as (_ & [H|H]);
      rewrite H; [destruct e4; simpl in *; rewrite Y4, Y3|]; lra.
  - destruct (handle_score_keeps a (set_score_p1 (score_p1 e4 + 1)%Z e4)) as (_ & [H|H]);
      rewrite H; [destruct e4; simpl in *; rewrite Y4, Y3|]; lra.
  - rewrite Y4, Y3; lra.
Qed.

Lemma update_ball_between_walls_witness :
  status before_p1_hit = playing /\
  1 <= ball_y (fst (update (1/60) 0 before_p1_hit)) <= 99.
Proof.
  split; [reflexivity|].
  apply (update_ball_between_walls (1/60) 0 before_p1_hit); reflexivity.
Defined.

Lemma paddle_hit_sends_ball_back_witness :
  paddle_hit no_events = false /\
  paddle_hit (snd (check_paddle_collision 1 before_p1_hit no_events)) = true /\
  ((if (1 =? 1)%Z
    then 0 < ball_velocity_x (fst (check_paddle_collision 1 before_p1_hit no_events)) /\
         ball_x (fst (check_paddle_collision 1 before_p1_hit no_events)) = 4.1
    else ball_velocity_x (fst (check_paddle_collision 1 before_p1_hit no_events)) < 0 /\
         ball_x (fst (check_paddle_collision 1 before_p1_hit no_events)) = 95.9) /\
   0 < speed_of (fst (check_paddle_collision 1 before_p1_hit no_events)) <= MAX_BALL_SPEED).
Proof.
  assert (Hh : paddle_hit (snd (check_paddle_collision 1 before_p1_hit no_events)) = true)
    by (apply check_paddle_collision_hit_p1; unfold before_p1_hit; simpl;
        unfold_consts; lra).
  split; [reflexivity|]. split; [exact Hh|].
  apply (paddle_hit_sends_ball_back 1 before_p1_hit no_events); [reflexivity|exact Hh].
Defined.

(** Extra: a tick reports at most one point and does the bookkeeping of
    exactly that point: with no score event both scores are kept; with
    [score = 1] (resp. [2]) that player's score goes up by one and the other's
    is kept. *)
Theorem update_score_bookkeeping (dt a : R) (e : GameEngine) :
  let r := update dt a e in
  match score (snd r) with
  | None => score_p1 (fst r) = score_p1 e /\ score_p2 (fst r) = score_p2 e
  | Some p =>
      (p = 1%Z /\ score_p1 (fst r) = (score_p1 e + 1)%Z /\ score_p2 (fst r) = score_p2 e) \/
      (p = 2%Z /\ score_p1 (fst r) = score_p1 e /\ score_p2 (fst r) = (score_p2 e + 1)%Z)
  end.
Proof. exact (update_score_cases dt a e). Qed.

(** Extra: along any sequence of ticks the scores never go down. *)
Theorem run_updates_scores_monotone (ticks : list (R * R)) (e : GameEngine) :
  (score_p1 e <= score_p1 (run_updates ticks e))%Z /\
  (score_p2 e <= score_p2 (run_updates ticks e))%Z.
Proof.
  revert e; induction ticks as [|[dt a] rest IH]; intros e; simpl; [lia|].
  destruct (IH (fst (update dt a e))) as [I1 I2].
  pose proof (update_score_cases dt a e) as Hc; simpl in Hc.
  destruct (score (snd (update dt a e))) as [p|]; [destruct Hc as [(_&H1&H2)|(_&H1&H2)]|destruct Hc as [H1 H2]];
    rewrite H1, H2 in *; lia.
Qed.

(** Extra: no sequence of ticks changes the room code, the points limit, the
    players' ready and connected flags or the paddle directions. *)
Theorem run_updates_keep_settings (ticks : list (R * R)) (e : GameEngine) :
  settings (run_updates ticks e) = settings e.
Proof.
  revert e; induction ticks as [|[dt a] rest IH]; intros e; simpl; [reflexivity|].
  rewrite IH. apply update_settings.
Qed.

(** Extra: in a tick of a match being played, with both paddles inside
    [10, 90], a paddle with direction "up" has its [y] lowered by
    [PADDLE_SPEED] but not below 10, one with direction "down" has it raised
    by [PADDLE_SPEED] but not above 90, and one with any other direction
    stays where it is. *)
Theorem update_moves_paddles (dt a : R) (e : GameEngine) :
  status e = playing -> 10 <= p1_y e <= 90 -> 10 <= p2_y e <= 90 ->
  let e' := fst (update dt a e) in
  p1_y e' = (if String.eqb (p1_direction e) "up" then Rmax 10 (p1_y e - PADDLE_SPEED)
             else if String.eqb (p1_direction e) "down" then Rmin 90 (p1_y e + PADDLE_SPEED)
             else p1_y e) /\
  p2_y e' = (if String.eqb (p2_direction e) "up" then Rmax 10 (p2_y e - PADDLE_SPEED)
             else if String.eqb (p2_direction e) "down" then Rmin 90 (p2_y e + PADDLE_SPEED)
             else p2_y e).
Proof.
  intros Hs H1 H2. unfold update. rewrite Hs. simpl.
  destruct (update_ball_cases dt a (update_paddles dt e) no_events)
    as (e4 & ev4 & (_ & _ & _ & _ & _ & Y1 & Y2) & _ & ->).
  assert (Hy : p1_y (fst (if Rleb (ball_x e4) 0 then
        (handle_score a (set_score_p2 (score_p2 e4 + 1)%Z e4), set_score 2 ev4)
      else if Rleb FIELD_WIDTH (ball_x e4) then
        (handle_score a (set_score_p1 (score_p1 e4 + 1)%Z e4), set_score 1 ev4)
      else (e4, ev4))) = p1_y e4 /\
    p2_y (fst (if Rleb (ball_x e4) 0 then
        (handle_score a (set_score_p2 (score_p2 e4 + 1)%Z e4), set_score 2 ev4)
      else if Rleb FIELD_WIDTH (ball_x e4) then
        (handle_score a (set_score_p1 (score_p1 e4 + 1)%Z e4), set_score 1 ev4)
      else (e4, ev4))) = p2_y e4).
  { destruct (Rleb (ball_x e4) 0); [|destruct (Rleb FIELD_WIDTH (ball_x e4))]; simpl.
    - destruct (handle_score_spec a (set_score_p2 (score_p2 e4 + 1)%Z e4))
        as (_ & _ & _ & P1 & P2 & _).
      rewrite P1, P2; destruct e4; split; reflexivity.
    - destruct (handle_score_spec a (set_score_p1 (score_p1 e4 + 1)%Z e4))
        as (_ & _ & _ & P1 & P2 & _).
      rewrite P1, P2; destruct e4; split; reflexivity.
    - split; reflexivity. }
  destruct Hy as [-> ->]. rewrite Y1, Y2.
  revert H1 H2.
  destruct e as [rc pl st r1 r2 c1 c2 s1 s2 w y1 y2 d1 d2 bx byy vx vy sp].
  unfold update_paddles; simpl; intros H1 H2.
  rewrite !py_max_Rmax, !py_min_Rmin.
  destruct (String.eqb d1 "up"); [|destruct (String.eqb d1 "down")]; simpl;
  (destruct (String.eqb d2 "up"); [|destruct (String.eqb d2 "down")]); simpl;
  unfold_consts; unfold Rmax, Rmin; split; repeat destruct Rle_dec; lra.
Qed.

Lemma update_moves_paddles_witness :
  status before_p1_hit = playing /\ 10 <= p1_y before_p1_hit <= 90 /\
  10 <= p2_y before_p1_hit <= 90 /\
  p1_y (fst (update (1/60) 0 before_p1_hit)) =
    (if String.eqb (p1_direction before_p1_hit) "up"
     then Rmax 10 (p1_y before_p1_hit - PADDLE_SPEED)
     else if String.eqb (p1_direction before_p1_hit) "down"
     then Rmin 90 (p1_y before_p1_hit + PADDLE_SPEED)
     else p1_y before_p1_hit) /\
  p2_y (fst (update (1/60) 0 before_p1_hit)) =
    (if String.eqb (p2_direction before_p1_hit) "up"
     then Rmax 10 (p2_y before_p1_hit - PADDLE_SPEED)
     else if String.eqb (p2_direction before_p1_hit) "down"
     then Rmin 90 (p2_y before_p1_hit + PADDLE_SPEED)
     else p2_y before_p1_hit).
Proof.
  assert (Hb : 10 <= p1_y before_p1_hit <= 90 /\ 10 <= p2_y before_p1_hit <= 90)
    by (unfold before_p1_hit; simpl; lra).
  destruct Hb as [B1 B2].
  split; [reflexivity|]. split; [exact B1|]. split; [exact B2|].
  apply (update_moves_paddles (1/60) 0 before_p1_hit); [reflexivity|exact B1|exact B2].
Defined.

(** Extra: [player_join(n)] accepts exactly [n = 1] and [n = 2]: it then
    marks that player connected and keeps the other flag; for any other [n]
    it returns [False] and leaves the engine unchanged. *)
Theorem player_join_accepts_slots (n : Z) (e : GameEngine) :
  let '(e', ok) := player_join n e in
  ok = ((n =? 1) || (n =? 2))%Z%bool /\
  (ok = false -> e' = e) /\
  (n = 1%Z -> player1_connected e' = true /\ player2_connected e' = player2_connected e) /\
  (n = 2%Z -> player2_connected e' = true /\ player1_connected e' = player1_connected e).
Proof.
  destruct e as [rc pl st r1 r2 c1 c2 s1 s2 w y1 y2 d1 d2 bx byy vx vy sp].
  unfold player_join.
  destruct (Z.eqb_spec n 1); [subst n|destruct (Z.eqb_spec n 2); [subst n|]]; simpl.
  - destruct c2; simpl; repeat split; intros; (discriminate || reflexivity).
  - destruct c1; simpl; repeat split; intros; (discriminate || reflexivity).
  - repeat split; intros; (reflexivity || contradiction).
Qed.

End EngineFacts.

Module ConsumerFacts.
Import Consumer ConsumerProofs.

(** Extra: a frame that is not JSON, or JSON that is not an object, or an
    object whose [type] is none of the four known ones, is answered with one
    error message to the sender and changes nothing. *)
Theorem receive_rejects_bad_frames (s : Sys) (c : channel) (cs : Consumer)
    (choice : Z) (angle : R) :
  consumers s !! c = Some cs ->
  receive c InvalidJson choice angle s = Some (s, [ToSelf c (MError "Invalid JSON")]) /\
  (forall ty, receive c (NotAnObject ty) choice angle s =
     Some (s, [ToSelf c (MError (String.append "'"
                 (String.append ty "' object has no attribute 'get'")))])) /\
  (forall data,
     opt_json_eq_str (assoc_last "type" data) "create_room" = false ->
     opt_json_eq_str (assoc_last "type" data) "join_game" = false ->
     opt_json_eq_str (assoc_last "type" data) "player_ready" = false ->
     opt_json_eq_str (assoc_last "type" data) "move_paddle" = false ->
     receive c (Payload data) choice angle s =
       Some (s, [ToSelf c (MUnknownType (assoc_last "type" data))])).
Proof.
  intros Hc. unfold receive. rewrite Hc.
  split; [reflexivity|]. split; [reflexivity|].
  intros data H1 H2 H3 H4. rewrite H1, H2, H3, H4. reflexivity.
Qed.

(** Extra: a message from a consumer whose room no longer exists changes
    nothing: [join_game] answers "Room does not exist", an unknown type is
    answered with an error, and the other known types send nothing. *)
Theorem receive_missing_room (s : Sys) (c : channel) (cs : Consumer)
    (data : list (string * Json)) (choice : Z) (angle : R) :
  consumers s !! c = Some cs -> ACTIVE_ROOMS s !! room_code cs = None ->
  receive c (Payload data) choice angle s =
    Some (s, if opt_json_eq_str (assoc_last "type" data) "create_room" then []
             else if opt_json_eq_str (assoc_last "type" data) "join_game"
             then [ToSelf c (MError "Room does not exist")]
             else if opt_json_eq_str (assoc_last "type" data) "player_ready" then []
             else if opt_json_eq_str (assoc_last "type" data) "move_paddle" then []
             else [ToSelf c (MUnknownType (assoc_last "type" data))]).
Proof.
  intros Hc Hr. unfold receive. rewrite Hc. cbv beta zeta iota.
  destruct (opt_json_eq_str (assoc_last "type" data) "create_room");
    [unfold handle_create_room; rewrite Hr; reflexivity|].
  destruct (opt_json_eq_str (assoc_last "type" data) "join_game");
    [unfold handle_join_game; rewrite Hr; reflexivity|].
  destruct (opt_json_eq_str (assoc_last "type" data) "player_ready");
    [unfold handle_player_ready; cbv zeta;
     destruct (negb _); [reflexivity|rewrite Hr; reflexivity]|].
  destruct (opt_json_eq_str (assoc_last "type" data) "move_paddle");
    [unfold handle_move_paddle; cbv zeta;
     destruct (negb _); [reflexivity|rewrite Hr; reflexivity]|].
  reflexivity.
Qed.


Lemma update_status_after_playing dt a e :
  Engine.status e = Engine.playing ->
  Engine.status (fst (Engine.update dt a e)) = Engine.playing \/
  Engine.status (fst (Engine.update dt a e)) = Engine.finished.
Proof.
  intros Hs. unfold Engine.update. rewrite Hs. cbn [Engine.status_eqb negb].
  destruct (EngineProofs.update_paddles_same dt e) as (P & _).
  destruct (EngineProofs.update_ball_cases dt a (Engine.update_paddles dt e) Engine.no_events)
    as (e4 & ev4 & (S & _) & _ & ->).
  destruct (Engine.Rleb (Engine.ball_x e4) 0);
    [|destruct (Engine.Rleb Engine.FIELD_WIDTH (Engine.ball_x e4))]; cbn [fst].
  - pose proof (EngineProofs.handle_score_spec a
                  (Engine.set_score_p2 (Engine.score_p2 e4 + 1)%Z e4)) as H.
    cbv zeta in H. destruct H as (_ & _ & _ & _ & _ & H).
    destruct (_ <=? _)%Z; [right; apply H|].
    destruct (_ <=? _)%Z; [right; apply H|].
    left. destruct H as [-> _]. destruct e4; cbn in *. congruence.
  - pose proof (EngineProofs.handle_score_spec a
                  (Engine.set_score_p1 (Engine.score_p1 e4 + 1)%Z e4)) as H.
    cbv zeta in H. destruct H as (_ & _ & _ & _ & _ & H).
    destruct (_ <=? _)%Z; [right; apply H|].
    destruct (_ <=? _)%Z; [right; apply H|].
    left. destruct H as [-> _]. destruct e4; cbn in *. congruence.
  - left. congruence.
Qed.

Lemma player_join_keeps n e :
  let e' := fst (Engine.player_join n e) in
  Engine.points_limit e' = Engine.points_limit e /\
  Engine.score_p1 e' = Engine.score_p1 e /\ Engine.score_p2 e' = Engine.score_p2 e /\
  Engine.room_code e' = Engine.room_code e.
Proof.
  destruct e; unfold Engine.player_join; cbn.
  destruct (n =? 1)%Z; [|destruct (n =? 2)%Z]; cbn;
    repeat (match goal with |- context [if ?b then _ else _] => destruct b end; cbn);
    repeat split; reflexivity.
Qed.

(** Extra: [create_room] creates the engine of the sender's room, with the
    given points limit, only when the room exists and has no engine yet, and
    then answers [room_created]; otherwise it changes nothing and sends
    nothing. *)
Theorem create_room_initialises_once (s : Sys) (c : channel) (cs : Consumer)
    (data : list (string * Json)) (choice : Z) (angle : R) :
  consumers s !! c = Some cs ->
  assoc_last "type" data = Some (JStr "create_room") ->
  match ACTIVE_ROOMS s !! room_code cs with
  | None => receive c (Payload data) choice angle s = Some (s, [])
  | Some room =>
      match engine room with
      | Some _ => receive c (Payload data) choice angle s = Some (s, [])
      | None =>
          forall pl, get_or "points_limit" (JNum 5) data = JNum pl ->
          receive c (Payload data) choice angle s =
            Some (set_room (room_code cs)
                    (with_engine (Some (Engine.init (room_code cs) pl)) room) s,
                  [ToSelf c (MRoomCreated (room_code cs) pl)])
      end
  end.
Proof.
  intros Hc Ht.
  unfold receive. rewrite Hc. cbv beta zeta iota. rewrite Ht. eval_str_eqs.
  unfold handle_create_room. cbv beta zeta.
  destruct (ACTIVE_ROOMS s !! room_code cs) as [room|]; [|reflexivity].
  destruct (engine room); [reflexivity|].
  intros pl Hpl. rewrite Hpl. reflexivity.
Qed.

(** Extra: a [join_game] whose role is neither "player" nor "observer"
    takes no slot and no place among the observers, yet makes the sender a
    player: its player number is kept (None for a fresh connection), it is
    answered [joined_as_player] with that number, and the room only gets
    its default engine if it had none. *)
Theorem join_game_other_role (s : Sys) (c : channel) (cs : Consumer) (room : Room)
    (data : list (string * Json)) (choice : Z) (angle : R) :
  consumers s !! c = Some cs -> ACTIVE_ROOMS s !! room_code cs = Some room ->
  assoc_last "type" data = Some (JStr "join_game") ->
  json_eq_str (get_or "role" (JStr "player") data) "player" = false ->
  json_eq_str (get_or "role" (JStr "player") data) "observer" = false ->
  let e0 := match engine room with Some e => e | None => Engine.init (room_code cs) 5 end in
  receive c (Payload data) choice angle s =
    Some (set_consumer c (set_role (Some RolePlayer) cs)
            (set_room (room_code cs) (with_engine (Some e0) room) s),
          [ToSelf c (MJoinedAsPlayer (player_num cs) (room_code cs));
           ToGroup (room_code cs) (MStatusChange (Engine.status e0))]).
Proof.
  intros Hc Hr Ht Hp Ho.
  unfold receive. rewrite Hc. cbv beta zeta iota. rewrite Ht. eval_str_eqs.
  unfold handle_join_game. cbv beta zeta. rewrite Hr, Hp, Ho. cbv beta iota.
  destruct room; reflexivity.
Qed.

(** Extra: [join_game] leaves the sender's room with an engine: the one it
    had, with its points limit, scores and room code kept, or else a new one
    with the default points limit 5. *)
Theorem join_game_engine (s : Sys) (c : channel) (cs : Consumer) (room : Room)
    (data : list (string * Json)) (choice : Z) (angle : R) :
  consumers s !! c = Some cs -> ACTIVE_ROOMS s !! room_code cs = Some room ->
  assoc_last "type" data = Some (JStr "join_game") ->
  let e0 := match engine room with Some e => e | None => Engine.init (room_code cs) 5 end in
  exists s' outs room' e',
    receive c (Payload data) choice angle s = Some (s', outs) /\
    ACTIVE_ROOMS s' !! room_code cs = Some room' /\ engine room' = Some e' /\
    Engine.points_limit e' = Engine.points_limit e0 /\
    Engine.score_p1 e' = Engine.score_p1 e0 /\ Engine.score_p2 e' = Engine.score_p2 e0 /\
    Engine.room_code e' = Engine.room_code e0.
Proof.
  intros Hc Hr Ht e0.
  unfold receive. rewrite Hc. cbv beta zeta iota. rewrite Ht. eval_str_eqs.
  unfold handle_join_game. cbv beta zeta. rewrite Hr. fold e0.
  destruct (json_eq_str (get_or "role" (JStr "player") data) "player");
    [destruct (players room !! 1%Z); [destruct (players room !! 2%Z)|]|
     destruct (json_eq_str (get_or "role" (JStr "player") data) "observer")];
    cbv beta iota; do 4 eexists; (split; [reflexivity|]);
    cbn [set_consumer set_room consumers ACTIVE_ROOMS]; rewrite lookup_insert_eq;
    (split; [reflexivity|]); cbn [engine with_engine]; (split; [reflexivity|]);
    first [exact (player_join_keeps _ e0) | repeat split].
Qed.


(** Extra: from every reachable state, [player_ready] from a consumer that is
    not a player holding a number changes nothing and sends nothing; from a
    player holding number [k] it never fails: the room's engine takes
    [player_ready(k)], the new status is broadcast to the room, and the game
    loop is started when the status is now playing and no loop runs. *)
Theorem player_ready_from_reachable (s : Sys) (c : channel) (cs : Consumer)
    (data : list (string * Json)) (choice : Z) (angle : R) :
  reachable s -> consumers s !! c = Some cs ->
  assoc_last "type" data = Some (JStr "player_ready") ->
  match role cs, player_num cs with
  | Some RolePlayer, Some k =>
      exists room e,
        ACTIVE_ROOMS s !! room_code cs = Some room /\ engine room = Some e /\
        receive c (Payload data) choice angle s =
          Some (set_room (room_code cs)
                  (with_task
                     (task room || Engine.status_eqb
                        (Engine.status (Engine.player_ready k choice angle e)) Engine.playing)
                     (with_engine (Some (Engine.player_ready k choice angle e)) room)) s,
                [ToGroup (room_code cs)
                   (MStatusChange (Engine.status (Engine.player_ready k choice angle e)))])
  | _, _ => receive c (Payload data) choice angle s = Some (s, [])
  end.
Proof.
  intros Hreach Hc Ht. pose proof (reachable_inv s Hreach) as Hinv.
  unfold receive. rewrite Hc. cbv beta zeta iota. rewrite Ht. eval_str_eqs.
  unfold handle_player_ready. cbv beta zeta.
  destruct (role cs) as [[|]|]; cbn [is_player andb negb]; try reflexivity.
  destruct (player_num cs) as [k|] eqn:Hk; [|reflexivity].
  destruct (Hinv c cs k Hc Hk) as [H12 (room & e & Hr & _ & He)].
  assert (Hk0 : (k =? 0)%Z = false) by (destruct H12 as [->| ->]; reflexivity).
  cbn [truthy_num]. rewrite Hk0. cbn [negb].
  rewrite Hr, He. exists room, e. split; [reflexivity|]. split; [exact He|].
  destruct room as [en t pls obs]; cbn [with_task with_engine task].
  destruct (Engine.status_eqb _ _), t; reflexivity.
Qed.

(** Extra: when a player holding number [k] disconnects, its consumer is
    removed, slot [k] of its room is freed and the room's game loop is
    stopped, the room is told [player_disconnected k], the room is deleted
    exactly when it has then no player and no observer, and no other room
    changes. *)
Theorem disconnect_player_frees_slot (s : Sys) (c : channel) (cs : Consumer) (k : Z)
    (room : Room) :
  consumers s !! c = Some cs -> role cs = Some RolePlayer -> player_num cs = Some k ->
  k <> 0%Z -> ACTIVE_ROOMS s !! room_code cs = Some room ->
  let '(s', outs) := disconnect c s in
  outs = [ToGroup (room_code cs) (MPlayerDisconnected k)] /\
  consumers s' = delete c (consumers s) /\
  ACTIVE_ROOMS s' !! room_code cs =
    (if bool_decide (delete k (players room) = ∅) && bool_decide (observers room = [])
     then None
     else Some (with_task false (with_players (delete k (players room)) room))) /\
  (forall rc, rc <> room_code cs -> ACTIVE_ROOMS s' !! rc = ACTIVE_ROOMS s !! rc).
Proof.
  intros Hc Hrole Hk Hk0 Hr.
  unfold disconnect. rewrite Hc. cbn [ACTIVE_ROOMS consumers]. rewrite Hr.
  unfold leave_room. rewrite Hrole, Hk.
  rewrite (proj2 (Z.eqb_neq k 0) Hk0).
  cbn [with_task with_players players observers].
  destruct (bool_decide (delete k (players room) = ∅) && bool_decide (observers room = []));
    cbn [ACTIVE_ROOMS consumers set_room];
    (split; [reflexivity|]); (split; [reflexivity|]).
  - split; [apply lookup_delete_eq|]. intros rc ne. apply lookup_delete_ne. congruence.
  - split; [apply lookup_insert_eq|]. intros rc ne. apply lookup_insert_ne. congruence.
Qed.

(** Extra: when a consumer that is neither an observer nor a player holding a
    number disconnects (for instance one that never sent [join_game]), it is
    removed and nothing is sent; its room is deleted when it has no player and
    no observer, even if other consumers are still connected to it, and is
    kept unchanged otherwise. *)
Theorem disconnect_without_role (s : Sys) (c : channel) (cs : Consumer) (room : Room) :
  consumers s !! c = Some cs -> role cs <> Some RoleObserver ->
  (is_player (role cs) && truthy_num (player_num cs))%bool = false ->
  ACTIVE_ROOMS s !! room_code cs = Some room ->
  disconnect c s =
    (if bool_decide (players room = ∅) && bool_decide (observers room = [])
     then mkSys (delete (room_code cs) (ACTIVE_ROOMS s)) (delete c (consumers s))
     else mkSys (ACTIVE_ROOMS s) (delete c (consumers s)), []).
Proof.
  intros Hc Ho Hp Hr.
  assert (Hl : leave_room c cs room = (room, [])).
  { unfold leave_room.
    destruct (role cs) as [[|]|]; [|congruence|reflexivity].
    destruct (player_num cs) as [k|]; [|reflexivity].
    cbn [is_player truthy_num andb] in Hp. apply negb_false_iff in Hp. rewrite Hp.
    reflexivity. }
  unfold disconnect. rewrite Hc. cbn [ACTIVE_ROOMS consumers]. rewrite Hr, Hl.
  destruct (bool_decide (players room = ∅) && bool_decide (observers room = []));
    [reflexivity|].
  unfold set_room. cbn [ACTIVE_ROOMS consumers]. rewrite insert_id by exact Hr.
  reflexivity.
Qed.

(** Extra: an iteration of the game loop changes only the engine and the
    loop flag of its own room: no consumer, player slot, observer or other
    room; afterwards the loop runs exactly when the room's game is
    playing. *)
Theorem tick_only_touches_engine (s : Sys) (rc : string) (dt angle : R) (s' : Sys)
    (outs : list Out) :
  tick rc dt angle s = Some (s', outs) ->
  consumers s' = consumers s /\
  (forall rc', rc' <> rc -> ACTIVE_ROOMS s' !! rc' = ACTIVE_ROOMS s !! rc') /\
  exists room room' e',
    ACTIVE_ROOMS s !! rc = Some room /\ ACTIVE_ROOMS s' !! rc = Some room' /\
    players room' = players room /\ observers room' = observers room /\
    engine room' = Some e' /\
    task room' = Engine.status_eqb (Engine.status e') Engine.playing.
Proof.
  unfold tick.
  destruct (ACTIVE_ROOMS s !! rc) as [room|] eqn:Hr; [|discriminate].
  destruct room as [en tk pls obs]; cbn [engine task].
  destruct en as [e|]; [|discriminate].
  destruct tk; cbn [negb]; [|discriminate].
  destruct (Engine.status_eqb (Engine.status e) Engine.playing) eqn:Hs;
    intros H; injection H as <- _; cbn [set_room ACTIVE_ROOMS consumers];
    (split; [reflexivity|]);
    (split; [intros rc' ne; apply lookup_insert_ne; congruence|]);
    do 3 eexists; (split; [reflexivity|]); rewrite lookup_insert_eq;
    (split; [reflexivity|]); cbn [players observers engine task with_task with_engine];
    (split; [reflexivity|]); (split; [reflexivity|]); (split; [reflexivity|]).
  - assert (Hp : Engine.status e = Engine.playing)
      by (destruct (Engine.status e); first [reflexivity|discriminate]).
    destruct (update_status_after_playing dt angle e Hp) as [-> | ->]; reflexivity.
  - exact (eq_sym Hs).
Qed.

(** Extra: a message from consumer [c] changes no other consumer and no
    room but [c]'s own; [c] stays connected to the same room. *)
Theorem receive_local (s : Sys) (c : channel) (m : Inbound) (choice : Z) (angle : R)
    (s' : Sys) (outs : list Out) :
  receive c m choice angle s = Some (s', outs) ->
  exists cs cs',
    consumers s !! c = Some cs /\ consumers s' !! c = Some cs' /\
    room_code cs' = room_code cs /\
    (forall c', c' <> c -> consumers s' !! c' = consumers s !! c') /\
    (forall rc, rc <> room_code cs -> ACTIVE_ROOMS s' !! rc = ACTIVE_ROOMS s !! rc).
Proof.
  unfold receive.
  destruct (consumers s !! c) as [cs|] eqn:Hc; [|discriminate].
  intros H. exists cs.
  destruct m as [|ty|data];
    [injection H as <- _; exists cs; auto|injection H as <- _; exists cs; auto|].
  revert H. cbv zeta.
  repeat match goal with
         | |- context [if opt_json_eq_str ?t ?x then _ else _] =>
             destruct (opt_json_eq_str t x)
         end.
  all: first
    [ unfold handle_create_room; cbv zeta;
      destruct (ACTIVE_ROOMS s !! room_code cs) as [room|] eqn:Hr;
      [destruct (engine room); [|destruct (get_or _ _ _)]|]
    | unfold handle_join_game; cbv zeta;
      destruct (ACTIVE_ROOMS s !! room_code cs) as [room|] eqn:Hr;
      [destruct (json_eq_str _ "player");
       [destruct (players room !! 1%Z); [destruct (players room !! 2%Z)|]|
        destruct (json_eq_str _ "observer")]|]
    | unfold handle_player_ready; cbv zeta;
      destruct (negb _); [|destruct (ACTIVE_ROOMS s !! room_code cs) as [room|] eqn:Hr;
                           [destruct (engine room)|]]
    | unfold handle_move_paddle; cbv zeta;
      destruct (negb _); [|destruct (ACTIVE_ROOMS s !! room_code cs) as [room|] eqn:Hr;
                           [destruct (engine room);
                            [destruct (negb _); [|destruct (get_or _ _ _);
                              try match goal with |- context [if ?b then _ else _] =>
                                    destruct b end]|]|]]
    | idtac ].
  all: cbv iota beta; intros H; try discriminate; injection H as <- _.
  all: cbn [set_consumer set_room consumers ACTIVE_ROOMS].
  all: first
    [ exists cs; split; [reflexivity|]; split; [exact Hc|]; split; [reflexivity|];
      split; intros; reflexivity
    | eexists; split; [reflexivity|]; split; [apply lookup_insert_eq|];
      split; [reflexivity|];
      split; intros ? ne; [apply lookup_insert_ne; congruence|];
      rewrite ?lookup_insert_ne by congruence; reflexivity
    | exists cs; split; [reflexivity|]; split; [exact Hc|]; split; [reflexivity|];
      split; intros ? ne; [reflexivity|]; apply lookup_insert_ne; congruence ].
Qed.

(** Extra: in every reachable state of the server, a connected consumer
    holding a player number [k] is player 1 or 2 and holds slot [k] of its
    room, which exists and has an engine. *)
Theorem reachable_player_slots (s : Sys) : reachable s -> player_inv s.
Proof. exact (reachable_inv s). Qed.


Lemma demo_reachable : reachable demo_sys.
Proof.
  exists demo_events. unfold demo_sys.
  destruct (run_sys demo_events sys0) eqn:E; [reflexivity|].
  vm_compute in E. discriminate.
Qed.

Lemma receive_rejects_bad_frames_witness :
  consumers demo_sys !! 1 = Some (mkConsumer "ABC123" (Some RolePlayer) (Some 1%Z)) /\
  receive 1 InvalidJson 1 0 demo_sys = Some (demo_sys, [ToSelf 1 (MError "Invalid JSON")]).
Proof.
  assert (Hc : consumers demo_sys !! 1 =
               Some (mkConsumer "ABC123" (Some RolePlayer) (Some 1%Z)))
    by (vm_compute; reflexivity).
  split; [exact Hc|].
  destruct (receive_rejects_bad_frames demo_sys 1 _ 1 0 Hc) as [T _]. exact T.
Defined.

Lemma receive_missing_room_witness :
  let s := fst (disconnect 2 (connect 2 "ABC123" (connect 1 "ABC123" sys0))) in
  consumers s !! 1 = Some (mkConsumer "ABC123" None None) /\
  ACTIVE_ROOMS s !! "ABC123" = None /\
  receive 1 (Payload [("type", JStr "join_game")]) 1 0 s =
    Some (s, [ToSelf 1 (MError "Room does not exist")]).
Proof.
  intros s.
  assert (Hc : consumers s !! 1 = Some (mkConsumer "ABC123" None None))
    by (vm_compute; reflexivity).
  assert (Hr : ACTIVE_ROOMS s !! "ABC123" = None) by (vm_compute; reflexivity).
  split; [exact Hc|]. split; [exact Hr|].
  exact (receive_missing_room s 1 _ [("type", JStr "join_game")] 1 0 Hc Hr).
Defined.

Lemma create_room_initialises_once_witness :
  let s := connect 1 "ABC123" sys0 in
  consumers s !! 1 = Some (mkConsumer "ABC123" None None) /\
  receive 1 (Payload [("type", JStr "create_room"); ("points_limit", JNum 3)]) 1 0 s =
    Some (set_room "ABC123" (with_engine (Some (Engine.init "ABC123" 3)) empty_room) s,
          [ToSelf 1 (MRoomCreated "ABC123" 3)]).
Proof.
  intros s.
  assert (Hc : consumers s !! 1 = Some (mkConsumer "ABC123" None None))
    by (vm_compute; reflexivity).
  assert (Hr : ACTIVE_ROOMS s !! "ABC123" = Some empty_room)
    by (vm_compute; reflexivity).
  split; [exact Hc|].
  pose proof (create_room_initialises_once s 1 _
                [("type", JStr "create_room"); ("points_limit", JNum 3)] 1 0
                Hc eq_refl) as T.
  cbn [room_code] in T. rewrite Hr in T. exact (T 3%Z eq_refl).
Defined.

Lemma join_game_other_role_witness :
  let s := connect 1 "ABC123" sys0 in
  consumers s !! 1 = Some (mkConsumer "ABC123" None None) /\
  ACTIVE_ROOMS s !! "ABC123" = Some empty_room /\
  receive 1 (Payload [("type", JStr "join_game"); ("role", JStr "spectator")]) 1 0 s =
    Some (set_consumer 1 (mkConsumer "ABC123" (Some RolePlayer) None)
            (set_room "ABC123" (with_engine (Some (Engine.init "ABC123" 5)) empty_room) s),
          [ToSelf 1 (MJoinedAsPlayer None "ABC123");
           ToGroup "ABC123" (MStatusChange Engine.waiting_for_opponent)]).
Proof.
  intros s.
  assert (Hc : consumers s !! 1 = Some (mkConsumer "ABC123" None None))
    by (vm_compute; reflexivity).
  assert (Hr : ACTIVE_ROOMS s !! "ABC123" = Some empty_room)
    by (vm_compute; reflexivity).
  split; [exact Hc|]. split; [exact Hr|].
  exact (join_game_other_role s 1 _ empty_room
           [("type", JStr "join_game"); ("role", JStr "spectator")] 1 0
           Hc Hr eq_refl eq_refl eq_refl).
Defined.

Lemma join_game_engine_witness :
  let s := connect 1 "ABC123" sys0 in
  consumers s !! 1 = Some (mkConsumer "ABC123" None None) /\
  ACTIVE_ROOMS s !! "ABC123" = Some empty_room /\
  exists s' outs room' e',
    receive 1 (Payload [("type", JStr "join_game")]) 1 0 s = Some (s', outs) /\
    ACTIVE_ROOMS s' !! "ABC123" = Some room' /\ engine room' = Some e' /\
    Engine.points_limit e' = 5%Z.
Proof.
  intros s.
  assert (Hc : consumers s !! 1 = Some (mkConsumer "ABC123" None None))
    by (vm_compute; reflexivity).
  assert (Hr : ACTIVE_ROOMS s !! "ABC123" = Some empty_room)
    by (vm_compute; reflexivity).
  split; [exact Hc|]. split; [exact Hr|].
  destruct (join_game_engine s 1 _ empty_room [("type", JStr "join_game")] 1 0
              Hc Hr eq_refl) as (s' & outs & room' & e' & H1 & H2 & H3 & H4 & _).
  exists s', outs, room', e'. split; [exact H1|]. split; [exact H2|].
  split; [exact H3|]. exact H4.
Defined.

Lemma player_ready_from_reachable_witness :
  reachable demo_sys /\
  consumers demo_sys !! 1 = Some (mkConsumer "ABC123" (Some RolePlayer) (Some 1%Z)) /\
  exists room e,
    ACTIVE_ROOMS demo_sys !! "ABC123" = Some room /\ engine room = Some e /\
    receive 1 (Payload [("type", JStr "player_ready")]) 1 0 demo_sys =
      Some (set_room "ABC123"
              (with_task
                 (task room || Engine.status_eqb
                    (Engine.status (Engine.player_ready 1 1 0 e)) Engine.playing)
                 (with_engine (Some (Engine.player_ready 1 1 0 e)) room)) demo_sys,
            [ToGroup "ABC123" (MStatusChange (Engine.status (Engine.player_ready 1 1 0 e)))]).
Proof.
  assert (Hc : consumers demo_sys !! 1 =
               Some (mkConsumer "ABC123" (Some RolePlayer) (Some 1%Z)))
    by (vm_compute; reflexivity).
  split; [exact demo_reachable|]. split; [exact Hc|].
  exact (player_ready_from_reachable demo_sys 1 _ [("type", JStr "player_ready")] 1 0
           demo_reachable Hc eq_refl).
Defined.

Lemma disconnect_player_frees_slot_witness :
  exists room,
    consumers demo_sys !! 1 = Some (mkConsumer "ABC123" (Some RolePlayer) (Some 1%Z)) /\
    ACTIVE_ROOMS demo_sys !! "ABC123" = Some room /\
    (disconnect 1 demo_sys).2 = [ToGroup "ABC123" (MPlayerDisconnected 1)] /\
    ACTIVE_ROOMS (disconnect 1 demo_sys).1 !! "ABC123" =
      Some (with_task false (with_players (delete 1%Z (players room)) room)).
Proof.
  assert (Hc : consumers demo_sys !! 1 =
               Some (mkConsumer "ABC123" (Some RolePlayer) (Some 1%Z)))
    by (vm_compute; reflexivity).
  destruct (ACTIVE_ROOMS demo_sys !! "ABC123") as [room|] eqn:Hr;
    [|vm_compute in Hr; discriminate].
  pose proof (disconnect_player_frees_slot demo_sys 1 _ 1 room Hc eq_refl eq_refl
                ltac:(discriminate) Hr) as T.
  assert (Hp : bool_decide (delete 1%Z (players room) = ∅) = false).
  { assert (L : delete 1%Z (players room) !! 2%Z = Some (2 : channel))
      by (vm_compute in Hr; injection Hr as <-; vm_compute; reflexivity).
    apply bool_decide_eq_false. intros E.
    rewrite E, lookup_empty in L. discriminate. }
  cbn [room_code] in T. rewrite Hp in T. cbn [andb] in T.
  destruct (disconnect 1 demo_sys) as [s' outs].
  destruct T as (To & _ & Tr & _).
  exists room. split; [exact Hc|]. split; [reflexivity|]. split; [exact To|exact Tr].
Defined.

Lemma disconnect_without_role_witness :
  let s := connect 2 "ABC123" (connect 1 "ABC123" sys0) in
  consumers s !! 2 = Some (mkConsumer "ABC123" None None) /\
  ACTIVE_ROOMS s !! "ABC123" = Some empty_room /\
  disconnect 2 s =
    (mkSys (delete "ABC123" (ACTIVE_ROOMS s)) (delete 2 (consumers s)), []).
Proof.
  intros s.
  assert (Hc : consumers s !! 2 = Some (mkConsumer "ABC123" None None))
    by (vm_compute; reflexivity).
  assert (Hr : ACTIVE_ROOMS s !! "ABC123" = Some empty_room)
    by (vm_compute; reflexivity).
  split; [exact Hc|]. split; [exact Hr|].
  exact (disconnect_without_role s 2 _ empty_room Hc ltac:(discriminate) eq_refl Hr).
Defined.

Lemma tick_only_touches_engine_witness :
  exists s' outs,
    tick "ABC123" (1/60) 0 demo_sys = Some (s', outs) /\
    consumers s' = consumers demo_sys /\
    exists room room' e',
      ACTIVE_ROOMS demo_sys !! "ABC123" = Some room /\
      ACTIVE_ROOMS s' !! "ABC123" = Some room' /\
      players room' = players room /\ engine room' = Some e' /\
      task room' = Engine.status_eqb (Engine.status e') Engine.playing.
Proof.
  destruct (tick "ABC123" (1/60) 0 demo_sys) as [[s' outs]|] eqn:E;
    [|vm_compute in E; discriminate].
  destruct (tick_only_touches_engine demo_sys "ABC123" (1/60) 0 s' outs E)
    as (Hc & _ & room & room' & e' & H1 & H2 & H3 & _ & H5 & H6).
  exists s', outs. split; [reflexivity|]. split; [exact Hc|].
  exists room, room', e'. repeat (split; [assumption|]). exact H6.
Defined.

Lemma receive_local_witness :
  exists s' outs,
    receive 1 (Payload [("type", JStr "move_paddle"); ("direction", JStr "up")]) 1 0
      demo_sys = Some (s', outs) /\
    consumers s' !! 2 = consumers demo_sys !! 2.
Proof.
  destruct (receive 1 (Payload [("type", JStr "move_paddle"); ("direction", JStr "up")])
              1 0 demo_sys) as [[s' outs]|] eqn:E;
    [|vm_compute in E; discriminate].
  destruct (receive_local demo_sys 1 _ 1 0 s' outs E)
    as (cs & cs' & _ & _ & _ & Ho & _).
  exists s', outs. split; [reflexivity|]. apply Ho. discriminate.
Defined.

Lemma reachable_player_slots_witness : reachable demo_sys /\ player_inv demo_sys.
Proof.
  split; [exact demo_reachable|]. exact (reachable_player_slots demo_sys demo_reachable).
Defined.


(** Extra: a [join_game] with role "observer" appends the sender to the
    room's observers, even when it is already listed there, makes it an
    observer and answers [joined_as_observer]; its player number and the
    room's player slots are kept, so a player that rejoins as an observer
    keeps its slot. *)
Theorem join_game_as_observer (s : Sys) (c : channel) (cs : Consumer) (room : Room)
    (data : list (string * Json)) (choice : Z) (angle : R) :
  consumers s !! c = Some cs -> ACTIVE_ROOMS s !! room_code cs = Some room ->
  assoc_last "type" data = Some (JStr "join_game") ->
  get_or "role" (JStr "player") data = JStr "observer" ->
  let e0 := match engine room with Some e => e | None => Engine.init (room_code cs) 5 end in
  receive c (Payload data) choice angle s =
    Some (set_consumer c (set_role (Some RoleObserver) cs)
            (set_room (room_code cs)
               (with_observers (observers room ++ [c]) (with_engine (Some e0) room)) s),
          [ToSelf c (MJoinedAsObserver (room_code cs));
           ToGroup (room_code cs) (MStatusChange (Engine.status e0))]).
Proof.
  intros Hc Hr Ht Hrole.
  unfold receive. rewrite Hc. cbv beta zeta iota. rewrite Ht. eval_str_eqs.
  unfold handle_join_game. cbv beta zeta. rewrite Hr, Hrole. eval_str_eqs.
  destruct room; reflexivity.
Qed.

(** Extra: when an observer disconnects, one occurrence of its channel is
    removed from the room's observers and nothing is sent; the slots are kept
    (even one it held as a player before), and the room is deleted exactly
    when it has then no player and no observer. *)
Theorem disconnect_observer (s : Sys) (c : channel) (cs : Consumer) (room : Room) :
  consumers s !! c = Some cs -> role cs = Some RoleObserver ->
  ACTIVE_ROOMS s !! room_code cs = Some room ->
  disconnect c s =
    (if bool_decide (players room = ∅) &&
        bool_decide (remove_first c (observers room) = [])
     then mkSys (delete (room_code cs) (ACTIVE_ROOMS s)) (delete c (consumers s))
     else mkSys (<[room_code cs := with_observers (remove_first c (observers room)) room]>
                   (ACTIVE_ROOMS s)) (delete c (consumers s)), []).
Proof.
  intros Hc Hrole Hr.
  unfold disconnect. rewrite Hc. cbn [ACTIVE_ROOMS consumers]. rewrite Hr.
  unfold leave_room. rewrite Hrole.
  destruct (bool_decide _ && bool_decide _); reflexivity.
Qed.

Lemma join_game_as_observer_witness :
  let s := connect 1 "ABC123" sys0 in
  consumers s !! 1 = Some (mkConsumer "ABC123" None None) /\
  ACTIVE_ROOMS s !! "ABC123" = Some empty_room /\
  receive 1 (Payload [("type", JStr "join_game"); ("role", JStr "observer")]) 1 0 s =
    Some (set_consumer 1 (mkConsumer "ABC123" (Some RoleObserver) None)
            (set_room "ABC123"
               (with_observers [1] (with_engine (Some (Engine.init "ABC123" 5)) empty_room)) s),
          [ToSelf 1 (MJoinedAsObserver "ABC123");
           ToGroup "ABC123" (MStatusChange Engine.waiting_for_opponent)]).
Proof.
  intros s.
  assert (Hc : consumers s !! 1 = Some (mkConsumer "ABC123" None None))
    by (vm_compute; reflexivity).
  assert (Hr : ACTIVE_ROOMS s !! "ABC123" = Some empty_room)
    by (vm_compute; reflexivity).
  split; [exact Hc|]. split; [exact Hr|].
  exact (join_game_as_observer s 1 _ empty_room
           [("type", JStr "join_game"); ("role", JStr "observer")] 1 0
           Hc Hr eq_refl eq_refl).
Defined.

(** An observer that joined twice: its second entry outlives it. *)
Lemma disconnect_observer_witness :
  let s := match run_sys [EvConnect 1 "ABC123";
              EvReceive 1 (Payload [("type", JStr "join_game"); ("role", JStr "observer")]) 1 0;
              EvReceive 1 (Payload [("type", JStr "join_game"); ("role", JStr "observer")]) 1 0]
              sys0 with Some s => s | None => sys0 end in
  exists room,
    consumers s !! 1 = Some (mkConsumer "ABC123" (Some RoleObserver) None) /\
    ACTIVE_ROOMS s !! "ABC123" = Some room /\ observers room = [1; 1] /\
    ACTIVE_ROOMS (disconnect 1 s).1 !! "ABC123" = Some (with_observers [1] room).
Proof.
  intros s.
  assert (Hc : consumers s !! 1 = Some (mkConsumer "ABC123" (Some RoleObserver) None))
    by (vm_compute; reflexivity).
  destruct (ACTIVE_ROOMS s !! "ABC123") as [room|] eqn:Hr;
    [|vm_compute in Hr; discriminate].
  assert (Ho : observers room = [1; 1])
    by (vm_compute in Hr; injection Hr as <-; reflexivity).
  assert (Hp : players room = ∅)
    by (vm_compute in Hr; injection Hr as <-; reflexivity).
  pose proof (disconnect_observer s 1 _ room Hc eq_refl Hr) as T.
  rewrite Ho, Hp in T. cbn [room_code remove_first Nat.eqb] in T.
  exists room. split; [exact Hc|]. split; [reflexivity|]. split; [exact Ho|].
  rewrite T. cbn [fst ACTIVE_ROOMS].
  rewrite (bool_decide_eq_false_2 ([1] = [])) by discriminate.
  rewrite andb_false_r. cbn [ACTIVE_ROOMS]. rewrite lookup_insert_eq. reflexivity.
Defined.

End ConsumerFacts.
